(** * Order generator: a shallow embedding of [scripts/generate-orders.py]

    The script draws values from fixed tables, assembles one order record
    per call of [generate_order], and [main] prints [count] of them as
    compact JSON lines, with a progress notice on the error stream after
    every 100th record.

    The embedding keeps the shape of the script: Python values are a small
    inductive type (dict literals are association lists in key order, as
    [json.dumps] walks them), the process-wide random source and clock are
    an explicit world threaded through a state monad, and the two output
    streams are byte strings that [print] appends to. *)

From Stdlib Require Import ZArith List String Ascii Bool Lia.
From Stdlib Require Import DecimalString Floats.
From Stdlib Require DecimalPos.
Import ListNotations.

#[local] Set Warnings "-inexact-float,-register-all".
#[local] Open Scope string_scope.
#[local] Open Scope Z_scope.

(** ** Python values *)

(** The values the script builds and hands to [json.dumps]. *)
Inductive pyval : Type :=
| PNone
| PInt (z : Z)
| PFloat (f : float)
| PStr (s : string)
| PList (l : list pyval)
| PDict (d : list (string * pyval)).

(** [d[k]] on a dict given as its items in insertion order. *)
Fixpoint items_get (k : string) (d : list (string * pyval)) : option pyval :=
  match d with
  | [] => None
  | (k', v) :: rest => if String.eqb k k' then Some v else items_get k rest
  end.

(** [v[k]]: [None] when [v] is not a dict or has no key [k]. *)
Definition dict_get (k : string) (v : pyval) : option pyval :=
  match v with
  | PDict d => items_get k d
  | _ => None
  end.

(** The items of a dict without key [k]. *)
Definition items_remove (k : string) (d : list (string * pyval))
  : list (string * pyval) :=
  filter (fun kv => negb (String.eqb k (fst kv))) d.

Definition dict_remove (k : string) (v : pyval) : pyval :=
  match v with
  | PDict d => PDict (items_remove k d)
  | _ => v
  end.

(** ** State monad *)

Definition M (S A : Type) : Type := S -> A * S.

Definition ret {S A} (a : A) : M S A := fun s => (a, s).

Definition bind {S A B} (m : M S A) (k : A -> M S B) : M S B :=
  fun s => let (a, s') := m s in k a s'.

Declare Scope monad_scope.
Delimit Scope monad_scope with monad.
Notation "x <- m ;; k" := (bind m (fun x => k))
  (at level 61, m at next level, right associativity) : monad_scope.
Notation "m ;;; k" := (bind m (fun _ => k))
  (at level 61, right associativity) : monad_scope.
#[local] Open Scope monad_scope.

(** [for x in xs: acc = body x acc], the accumulator being the variables
    the loop body updates. *)
Fixpoint for_each {S A B} (xs : list A) (body : A -> B -> M S B) (acc : B)
  : M S B :=
  match xs with
  | [] => ret acc
  | x :: rest => acc' <- body x acc ;; for_each rest body acc'
  end.

(** [range(a, b)]. *)
Definition py_range (a b : Z) : list Z :=
  map (fun k => a + Z.of_nat k) (seq 0 (Z.to_nat (b - a))).

(** ** Text *)

Definition newline : ascii := "010"%char.
Definition quote : ascii := "034"%char.
Definition backslash : ascii := "092"%char.

(** [s] holds no line break. *)
Fixpoint one_line (s : string) : bool :=
  match s with
  | EmptyString => true
  | String c rest => negb (Ascii.eqb c newline) && one_line rest
  end.

(** The lines of a stream: its pieces up to each line break, and the
    unterminated rest when there is one. *)
Fixpoint lines (s : string) : list string :=
  match s with
  | EmptyString => []
  | String c rest =>
      if Ascii.eqb c newline then EmptyString :: lines rest
      else match lines rest with
           | [] => [String c EmptyString]
           | l :: ls => String c l :: ls
           end
  end.

(** [sep.join(parts)]. *)
Fixpoint join (sep : string) (parts : list string) : string :=
  match parts with
  | [] => EmptyString
  | [x] => x
  | x :: rest => x ++ sep ++ join sep rest
  end.

(** [s] occurs in [t]. *)
Definition occurs_in (s t : string) : Prop :=
  exists before after, t = before ++ s ++ after.

(** ** The platform: random source, clock, float printing and [int]

    What the script takes from the Python runtime and does not define.
    [W] is the state of everything it reads from the outside: the
    generator behind the [random] module, the entropy [uuid.uuid4] reads,
    and the clock. The interpreter also brings the Unicode tables [int]
    consults and its limit on the digits of a numeral. *)
Class Platform (W : Type) : Type := {
  (** [random._randbelow(n)], the primitive under [choice] and [randint] *)
  randbelow : Z -> M W Z;
  randbelow_range : forall n w, 0 < n -> 0 <= fst (randbelow n w) < n;
  (** [random.random()], a float of [[0.0, 1.0)] *)
  random : M W float;
  (** [str(uuid.uuid4())] *)
  uuid4 : M W string;
  (** [datetime.now(timezone.utc)], [d + timedelta(days=k)], [d.strftime(f)] *)
  datetime : Type;
  datetime_now : M W datetime;
  add_days : datetime -> Z -> datetime;
  strftime : datetime -> string -> string;
  (** [float.__repr__] on finite floats; it prints no line break *)
  float_repr : float -> string;
  float_repr_one_line : forall f, one_line (float_repr f) = true;
  (** [chr(ch).isspace()] and [unicodedata.decimal(chr(ch))] on a code
      point, as the Unicode database of the interpreter has them *)
  unicode_isspace : N -> bool;
  unicode_decimal : N -> option Z;
  unicode_decimal_digit : forall ch d, unicode_decimal ch = Some d -> 0 <= d <= 9;
  (** [sys.get_int_max_str_digits()]: 4300 unless configured, 0 for no
      limit (and in interpreters that have none) *)
  int_max_str_digits : Z;
}.

(** ** Library functions the script calls *)

Section Library.
Context {W : Type} `{Platform W}.

(** [random.choice(seq)] is [seq[_randbelow(len(seq))]]. The default [d]
    only makes [nth] total: the index is inside [seq] whenever [seq] is
    not empty, and every call site passes a non-empty literal table. *)
Definition choice {A} (seq : list A) (d : A) : M W A :=
  i <- randbelow (Z.of_nat (List.length seq)) ;;
  ret (nth (Z.to_nat i) seq d).

(** [random.randint(a, b)] is [a + _randbelow(b - a + 1)]. *)
Definition randint (a b : Z) : M W Z :=
  r <- randbelow (b - a + 1) ;;
  ret (a + r).
End Library.

(** [str(n)] for an int. *)
Definition str (n : Z) : string := NilZero.string_of_int (Z.to_int n).

(** [c.lower()] and [s.lower()] on ASCII text. *)
Definition lower_ascii (c : ascii) : ascii :=
  let n := N_of_ascii c in
  if ((65 <=? n) && (n <=? 90))%N then ascii_of_N (n + 32) else c.

Fixpoint lower (s : string) : string :=
  match s with
  | EmptyString => EmptyString
  | String c rest => String (lower_ascii c) (lower rest)
  end.

Fixpoint zeros (n : nat) : string :=
  match n with
  | O => EmptyString
  | S n' => String "0" (zeros n')
  end.

(** [f"{n:05d}"]: sign first, then zeros up to a total width of five. *)
Definition format_05d (n : Z) : string :=
  let digits := str (Z.abs n) in
  if n <? 0
  then "-" ++ zeros (4 - String.length digits) ++ digits
  else zeros (5 - String.length digits) ++ digits.

(** [round(x, ndigits)] for [ndigits >= 0], as CPython computes it: the
    exact binary value of [x] is rounded half-to-even to [ndigits] decimal
    places, and the float nearest to that decimal is returned. Infinities,
    NaN and zeros round to themselves. *)
Definition round_half_even (num den : Z) : Z :=
  let q := num / den in
  let r := num mod den in
  match 2 * r ?= den with
  | Lt => q
  | Gt => q + 1
  | Eq => if Z.even q then q else q + 1
  end.

Definition py_round (x : float) (ndigits : N) : float :=
  match Prim2SF x with
  | S754_finite s m e =>
      let scale := 10 ^ Z.of_N ndigits in
      if 0 <=? e then x
      else
        let k := round_half_even (Zpos m * scale) (2 ^ (- e)) in
        match k, scale with
        | Zpos pk, Zpos ps =>
            SF2Prim (SFdiv prec emax (S754_finite s pk 0) (S754_finite false ps 0))
        | _, _ => if s then neg_zero else zero
        end
  | _ => x
  end.

(** ** Reference tables *)

Definition FIRST_NAMES : list string :=
  ["John"; "Jane"; "Michael"; "Sarah"; "David"; "Emily"; "Robert"; "Lisa";
   "William"; "Jennifer"].

Definition LAST_NAMES : list string :=
  ["Doe"; "Smith"; "Johnson"; "Williams"; "Brown"; "Jones"; "Garcia";
   "Miller"; "Davis"; "Martinez"].

Definition CITIES_STATES : list (string * string) :=
  [("San Francisco", "CA"); ("New York", "NY"); ("Los Angeles", "CA");
   ("Chicago", "IL"); ("Seattle", "WA"); ("Portland", "OR"); ("Austin", "TX");
   ("Denver", "CO"); ("Boston", "MA"); ("Miami", "FL")].

Definition CHANNELS : list string := ["WEB"; "MOBILE"; "API"; "POS"; "CALL_CENTER"].
Definition ORDER_TYPES : list string := ["STANDARD"; "GUEST"; "STORE"].
Definition FULFILLMENT_TYPES : list string := ["STH"; "BOPS"; "STS"].

(** A product row: (id, name, price, description). *)
Definition product : Type := Z * string * float * string.

Definition PRODUCTS : list product :=
  [(1000000001, "Apple AirPods Pro 2nd Gen", 249.99%float,
    "Wireless earbuds with active noise cancellation");
   (1000000002, "Sony WH-1000XM5 Headphones", 349.99%float,
    "Premium wireless noise-canceling headphones");
   (1000000003, "Anker USB-C Charging Cable 6ft", 19.99%float,
    "Braided nylon fast charging cable");
   (1000000004, "Nike Air Max 270 Running Shoes", 159.99%float,
    "Lightweight running shoes with Air Max cushioning");
   (1000000005, "Lululemon Yoga Mat 5mm", 78.00%float,
    "Non-slip yoga mat with alignment lines");
   (1000000006, "Kindle Paperwhite 11th Gen", 149.99%float,
    "E-reader with 6.8 inch display");
   (1000000007, "MacBook Pro 16-inch M3 Max", 3499.00%float,
    "Apple laptop with M3 Max chip");
   (1000000008, "Dell UltraSharp 32 4K Monitor", 899.99%float,
    "32-inch 4K USB-C Hub Monitor");
   (1000000009, "Dyson V15 Detect Vacuum", 749.99%float,
    "Cordless vacuum with laser detection");
   (1000000010, "Samsung Galaxy S24 Ultra", 1299.99%float,
    "Flagship smartphone with S Pen");
   (1000000011, "Bose QuietComfort Ultra", 429.00%float,
    "Premium noise canceling headphones");
   (1000000012, "Apple Watch Series 9", 399.00%float,
    "Smartwatch with health tracking");
   (1000000013, "Nintendo Switch OLED", 349.99%float,
    "Gaming console with OLED screen");
   (1000000014, "Instant Pot Duo 7-in-1", 89.99%float,
    "Multi-use pressure cooker");
   (1000000015, "Nespresso VertuoPlus", 179.00%float,
    "Coffee and espresso machine")].

Definition no_product : product := (0, EmptyString, 0%float, EmptyString).

(** ** [generate_order] *)

Section Generator.
Context {W : Type} `{Platform W}.

(** The body of the loop of [generate_order] (lines 56 to 85), with the
    variables it reads from the enclosing function as parameters. The draws
    happen in the order Python evaluates them: product, quantity, the
    discount coin, and then, inside the dict literal from top to bottom,
    the fulfillment type, street number, postal code and the two phone
    groups. [random.random()] is the condition of the conditional
    expression, so it is drawn on every line. *)
Definition order_line (full_name email city state ship_date delivery_date : string)
    (i : Z) (order_lines : list pyval) : M W (list pyval) :=
  product <- choice PRODUCTS no_product ;;
  let '(product_id, name, price, desc) := product in
  quantity <- randint 1 3 ;;
  u <- random ;;
  let discount :=
    if (u <? 0.2)%float then PFloat (py_round (price * 0.1)%float 2) else PNone in
  fulfillment_type <- choice FULFILLMENT_TYPES EmptyString ;;
  street <- randint 1 999 ;;
  postal <- randint 10000 99999 ;;
  area <- randint 100 999 ;;
  subscriber <- randint 1000 9999 ;;
  ret (order_lines ++ [PDict [
    ("line_number", PInt i);
    ("item_id", PInt product_id);
    ("item_name", PStr name);
    ("item_description", PStr desc);
    ("quantity", PInt quantity);
    ("unit_price", PFloat price);
    ("currency", PStr "USD");
    ("tax_rate", PFloat 0.08%float);
    ("discount_amount", discount);
    ("fulfillment_type", PStr fulfillment_type);
    ("estimated_ship_date", PStr ship_date);
    ("estimated_delivery_date", PStr delivery_date);
    ("shipping_address", PDict [
      ("full_name", PStr full_name);
      ("address_line1", PStr (str street ++ " Main Street"));
      ("address_line2", PNone);
      ("city", PStr city);
      ("state_province", PStr state);
      ("postal_code", PStr (str postal));
      ("country", PStr "USA");
      ("phone_number", PStr ("+1-" ++ str area ++ "-555-" ++ str subscriber));
      ("email", PStr email)])]])%list.

Definition generate_order (order_num : Z) : M W pyval :=
  first_name <- choice FIRST_NAMES EmptyString ;;
  last_name <- choice LAST_NAMES EmptyString ;;
  let full_name := first_name ++ " " ++ last_name in
  let email := lower first_name ++ "." ++ lower last_name ++ "@example.com" in
  city_state <- choice CITIES_STATES (EmptyString, EmptyString) ;;
  let '(city, state) := city_state in
  now <- datetime_now ;;
  let ship_date := strftime (add_days now 1) "%Y-%m-%d" in
  let delivery_date := strftime (add_days now 4) "%Y-%m-%d" in
  let timestamp := strftime now "%Y-%m-%dT%H:%M:%S" in
  num_lines <- randint 1 3 ;;
  order_lines <-
    for_each (py_range 1 (num_lines + 1))
      (order_line full_name email city state ship_date delivery_date) [] ;;
  external_order_id <- uuid4 ;;
  customer <- randint 1 10000 ;;
  order_type <- choice ORDER_TYPES EmptyString ;;
  channel <- choice CHANNELS EmptyString ;;
  street <- randint 1 999 ;;
  postal <- randint 10000 99999 ;;
  area <- randint 100 999 ;;
  subscriber <- randint 1000 9999 ;;
  ret (PDict [
    ("external_order_id", PStr external_order_id);
    ("customer_id", PStr ("CUST-" ++ format_05d customer));
    ("order_type", PStr order_type);
    ("channel", PStr channel);
    ("order_lines", PList order_lines);
    ("billing_address", PDict [
      ("full_name", PStr full_name);
      ("address_line1", PStr (str street ++ " Main Street"));
      ("address_line2", PNone);
      ("city", PStr city);
      ("state_province", PStr state);
      ("postal_code", PStr (str postal));
      ("country", PStr "USA");
      ("phone_number", PStr ("+1-" ++ str area ++ "-555-" ++ str subscriber));
      ("email", PStr email)]);
    ("notes", PStr ("Order #" ++ str order_num ++ " - Generated for testing"));
    ("timestamp", PStr timestamp)]).
End Generator.

(** ** [json.dumps(obj, separators=(',', ':'))] *)

Definition hex_digit (n : N) : ascii :=
  nth (N.to_nat n)
    (list_ascii_of_string "0123456789abcdef") "0"%char.

(** What [json.dumps] writes for one character of a string under the
    default [ensure_ascii=True]: quote and backslash get a backslash, the
    control characters with a short escape use it, and everything else
    outside [' '..'~'] is written as a [\uXXXX] escape. *)
Definition escape_char (c : ascii) : string :=
  let n := N_of_ascii c in
  if Ascii.eqb c quote then String backslash (String quote EmptyString)
  else if Ascii.eqb c backslash then String backslash (String backslash EmptyString)
  else if (n =? 8)%N then String backslash "b"
  else if (n =? 9)%N then String backslash "t"
  else if (n =? 10)%N then String backslash "n"
  else if (n =? 12)%N then String backslash "f"
  else if (n =? 13)%N then String backslash "r"
  else if ((32 <=? n) && (n <=? 126))%N then String c EmptyString
  else String backslash
         (String "u" (String "0" (String "0"
           (String (hex_digit (n / 16)) (String (hex_digit (n mod 16)) EmptyString))))).

Fixpoint escape (s : string) : string :=
  match s with
  | EmptyString => EmptyString
  | String c rest => escape_char c ++ escape rest
  end.

Definition dumps_str (s : string) : string :=
  String quote (escape s ++ String quote EmptyString).

Section Json.
Context {W : Type} `{Platform W}.

(** Floats: [float.__repr__], except that the non-finite ones have names. *)
Definition dumps_float (f : float) : string :=
  if is_nan f then "NaN"
  else if is_infinity f then (if get_sign f then "-Infinity" else "Infinity")
  else float_repr f.

Fixpoint json_dumps (v : pyval) : string :=
  match v with
  | PNone => "null"
  | PInt z => str z
  | PFloat f => dumps_float f
  | PStr s => dumps_str s
  | PList l => "[" ++ join "," (map json_dumps l) ++ "]"
  | PDict d =>
      "{" ++ join ","
               (map (fun kv : string * pyval =>
                      let (k, x) := kv in dumps_str k ++ ":" ++ json_dumps x) d)
          ++ "}"
  end.

(** The text of one dict item, as it stands between the commas. *)
Definition dumps_item (k : string) (x : pyval) : string :=
  dumps_str k ++ ":" ++ json_dumps x.
End Json.

(** ** The process: world and the two output streams *)

Record proc (W : Type) : Type := Proc {
  world : W;
  stdout : string;
  stderr : string;
}.
Arguments Proc {W} _ _ _.
Arguments world {W} _.
Arguments stdout {W} _.
Arguments stderr {W} _.

(** A process that has written nothing yet. *)
Definition start {W} (w : W) : proc W := Proc w EmptyString EmptyString.

(** Run a computation on the world inside the process. *)
Definition lift {W A} (m : M W A) : M (proc W) A :=
  fun p => let (a, w') := m (world p) in (a, Proc w' (stdout p) (stderr p)).

(** [print(s)] and [print(s, file=sys.stderr)]. *)
Definition print {W} (s : string) : M (proc W) unit :=
  fun p => (tt, Proc (world p) (stdout p ++ s ++ String newline EmptyString) (stderr p)).

Definition print_err {W} (s : string) : M (proc W) unit :=
  fun p => (tt, Proc (world p) (stdout p) (stderr p ++ s ++ String newline EmptyString)).

(** ** [int(s)] on the command-line argument *)

(** A Python [str] as its code points. *)
Definition text : Type := list N.

(** The [str] of an ASCII literal. *)
Definition codepoints (s : string) : text :=
  map N_of_ascii (list_ascii_of_string s).

(** The white space [int] skips around a numeral in its ASCII buffer:
    tab, line feed, vertical tab, form feed, carriage return and blank. *)
Definition is_space (c : ascii) : bool :=
  let n := N_of_ascii c in
  ((9 <=? n) && (n <=? 13) || (n =? 32))%N.

Definition is_digit (c : ascii) : bool :=
  let n := N_of_ascii c in ((48 <=? n) && (n <=? 57))%N.

Definition digit_value (c : ascii) : Z := Z.of_N (N_of_ascii c) - 48.

Fixpoint lstrip (s : string) : string :=
  match s with
  | EmptyString => EmptyString
  | String c rest => if is_space c then lstrip rest else s
  end.

Fixpoint rstrip (s : string) : string :=
  match s with
  | EmptyString => EmptyString
  | String c rest =>
      match rstrip rest with
      | EmptyString => if is_space c then EmptyString else String c EmptyString
      | rest' => String c rest'
      end
  end.

(** Decimal digits, single underscores allowed between two digits.
    [after_digit] says whether the character just read was a digit. *)
Fixpoint parse_digits (s : string) (after_digit : bool) (acc : Z) : option Z :=
  match s with
  | EmptyString => if after_digit then Some acc else None
  | String c rest =>
      if is_digit c then parse_digits rest true (10 * acc + digit_value c)
      else if Ascii.eqb c "_" && after_digit then parse_digits rest false acc
      else None
  end.

(** The number of digits of a numeral, underscores not counted. *)
Fixpoint digit_count (s : string) : nat :=
  match s with
  | EmptyString => O
  | String c rest => if is_digit c then S (digit_count rest) else digit_count rest
  end.

Section Int.
Context {W : Type} `{Platform W}.

(** A numeral of more than 640 digits is refused when a limit is set and
    the numeral has more digits than the limit. *)
Definition over_limit (digits : nat) : bool :=
  (640 <? Z.of_nat digits) && (0 <? int_max_str_digits)
  && (int_max_str_digits <? Z.of_nat digits).

Definition parse_numeral (body : string) : option Z :=
  if over_limit (digit_count body) then None else parse_digits body false 0.

(** [int] on its ASCII buffer: [None] stands for the [ValueError] Python
    raises on text that is not an integer literal, or is one of too many
    digits. Surrounding white space and one sign are accepted. *)
Definition py_int (s : string) : option Z :=
  match rstrip (lstrip s) with
  | String "-" rest => option_map Z.opp (parse_numeral rest)
  | String "+" rest => parse_numeral rest
  | body => parse_numeral body
  end.

(** The ASCII buffer [int] makes of a [str] before it reads the numeral:
    code points below 127 stay, other white space becomes a blank, other
    decimal digits become the ASCII digit of their value, and the buffer
    ends in a question mark at the first code point that is neither. *)
Fixpoint ascii_buffer (u : text) : string :=
  match u with
  | [] => EmptyString
  | ch :: rest =>
      if (ch <? 127)%N then String (ascii_of_N ch) (ascii_buffer rest)
      else if unicode_isspace ch then String " " (ascii_buffer rest)
      else match unicode_decimal ch with
           | Some d => String (ascii_of_N (48 + Z.to_N d)) (ascii_buffer rest)
           | None => "?"
           end
  end.

(** [int(s)] on a [str]: an ASCII [str] is its own buffer. *)
Definition int_of_text (u : text) : option Z :=
  if forallb (fun ch => ch <? 128)%N u
  then py_int (string_of_list_ascii (map ascii_of_N u))
  else py_int (ascii_buffer u).
End Int.

(** ** [main] *)

(** How the process ends: normally, or on an exception nobody caught, which
    the interpreter reports on the error stream before it exits with
    status 1. The report itself is not modelled. *)
Inductive ending : Type :=
| Completed
| Uncaught (exception : string).

Definition exit_status (e : ending) : Z :=
  match e with
  | Completed => 0
  | Uncaught _ => 1
  end.

Section Main.
Context {W : Type} `{Platform W}.

(** The progress notice of line 116. *)
Definition progress (i count : Z) : string :=
  "  Generated " ++ str i ++ "/" ++ str count ++ " orders...".

(** The loop of [main] (lines 112 to 116): the driver, given the count. *)
Definition run (count : Z) : M (proc W) unit :=
  for_each (py_range 1 (count + 1))
    (fun i (_ : unit) =>
       order <- lift (generate_order i) ;;
       print (json_dumps order) ;;;
       if i mod 100 =? 0 then print_err (progress i count) else ret tt)
    tt.

(** [main], with [sys.argv] as its argument. *)
Definition main (argv : list text) : M (proc W) ending :=
  match argv with
  | _ :: arg :: _ =>
      match int_of_text arg with
      | Some count => run count ;;; ret Completed
      | None => ret (Uncaught "ValueError")
      end
  | _ => run 10 ;;; ret Completed
  end.
End Main.

(** ** Vocabulary of the statements

    The records below are the dict literals of the source with the drawn
    values as parameters; the lemmas further down say that every run
    returns such a record, with the drawn values inside their tables and
    ranges. *)

Definition address_of (full_name city state email : string)
    (street postal area subscriber : Z) : pyval :=
  PDict [
    ("full_name", PStr full_name);
    ("address_line1", PStr (str street ++ " Main Street"));
    ("address_line2", PNone);
    ("city", PStr city);
    ("state_province", PStr state);
    ("postal_code", PStr (str postal));
    ("country", PStr "USA");
    ("phone_number", PStr ("+1-" ++ str area ++ "-555-" ++ str subscriber));
    ("email", PStr email)].

(** The discount of a line whose coin came up [u]. *)
Definition discount_of (price u : float) : pyval :=
  if (u <? 0.2)%float then PFloat (py_round (price * 0.1)%float 2) else PNone.

Definition line_of (full_name email city state ship_date delivery_date : string)
    (i : Z) (p : product) (quantity : Z) (u : float) (fulfillment_type : string)
    (street postal area subscriber : Z) : pyval :=
  let '(product_id, name, price, desc) := p in
  PDict [
    ("line_number", PInt i);
    ("item_id", PInt product_id);
    ("item_name", PStr name);
    ("item_description", PStr desc);
    ("quantity", PInt quantity);
    ("unit_price", PFloat price);
    ("currency", PStr "USD");
    ("tax_rate", PFloat 0.08%float);
    ("discount_amount", discount_of price u);
    ("fulfillment_type", PStr fulfillment_type);
    ("estimated_ship_date", PStr ship_date);
    ("estimated_delivery_date", PStr delivery_date);
    ("shipping_address",
      address_of full_name city state email street postal area subscriber)].

Definition order_of (external_order_id customer_id order_type channel : string)
    (order_lines : list pyval) (billing_address : pyval) (notes timestamp : string)
  : pyval :=
  PDict [
    ("external_order_id", PStr external_order_id);
    ("customer_id", PStr customer_id);
    ("order_type", PStr order_type);
    ("channel", PStr channel);
    ("order_lines", PList order_lines);
    ("billing_address", billing_address);
    ("notes", PStr notes);
    ("timestamp", PStr timestamp)].

(** The numbers an address draws are inside their ranges. *)
Definition address_draws (street postal area subscriber : Z) : Prop :=
  1 <= street <= 999 /\ 10000 <= postal <= 99999
  /\ 100 <= area <= 999 /\ 1000 <= subscriber <= 9999.

(** [line] is line [i] of an order of the given person, place and dates. *)
Definition is_line (full_name email city state ship_date delivery_date : string)
    (i : Z) (line : pyval) : Prop :=
  exists p quantity u fulfillment_type street postal area subscriber,
    line = line_of full_name email city state ship_date delivery_date
             i p quantity u fulfillment_type street postal area subscriber
    /\ In p PRODUCTS
    /\ 1 <= quantity <= 3
    /\ In fulfillment_type FULFILLMENT_TYPES
    /\ address_draws street postal area subscriber.

(** [order] is an order numbered [order_num]: the record of the source, its
    person, place and clock reading shared by the billing address and by
    every line. *)
Definition is_order {W : Type} `{Platform W} (order_num : Z) (order : pyval) : Prop :=
  exists first_name last_name city state (now : datetime) order_lines
         external_order_id customer order_type channel street postal area subscriber,
    let full_name := first_name ++ " " ++ last_name in
    let email := lower first_name ++ "." ++ lower last_name ++ "@example.com" in
    order = order_of external_order_id ("CUST-" ++ format_05d customer) order_type
              channel order_lines
              (address_of full_name city state email street postal area subscriber)
              ("Order #" ++ str order_num ++ " - Generated for testing")
              (strftime now "%Y-%m-%dT%H:%M:%S")
    /\ In first_name FIRST_NAMES
    /\ In last_name LAST_NAMES
    /\ In (city, state) CITIES_STATES
    /\ (1 <= List.length order_lines <= 3)%nat
    /\ Forall2 (is_line full_name email city state
                  (strftime (add_days now 1) "%Y-%m-%d")
                  (strftime (add_days now 4) "%Y-%m-%d"))
         (py_range 1 (Z.of_nat (List.length order_lines) + 1)) order_lines
    /\ 1 <= customer <= 10000
    /\ In order_type ORDER_TYPES
    /\ In channel CHANNELS
    /\ address_draws street postal area subscriber.

(** The four fields that identify the person an address belongs to. *)
Definition has_identity (address : pyval) (full_name email city state : string) : Prop :=
  dict_get "full_name" address = Some (PStr full_name)
  /\ dict_get "email" address = Some (PStr email)
  /\ dict_get "city" address = Some (PStr city)
  /\ dict_get "state_province" address = Some (PStr state).

(** Every field of every shipping address of [order] equals the field of
    the same name of its billing address. *)
Definition shipping_equals_billing (order : pyval) : Prop :=
  exists order_lines billing,
    dict_get "order_lines" order = Some (PList order_lines)
    /\ dict_get "billing_address" order = Some billing
    /\ Forall (fun line =>
                 exists shipping,
                   dict_get "shipping_address" line = Some shipping
                   /\ forall k, dict_get k shipping = dict_get k billing)
         order_lines.

(** Texts written one after the other, each closed by a line break. *)
Fixpoint emit (texts : list string) : string :=
  match texts with
  | [] => EmptyString
  | t :: rest => t ++ String newline (emit rest)
  end.

(** The orders that successive calls [generate_order i], for [i] along
    [indices], return from world [w] on. *)
Fixpoint orders_from {W : Type} `{Platform W} (indices : list Z) (w : W)
  : list pyval :=
  match indices with
  | [] => []
  | i :: rest =>
      let (order, w') := generate_order i w in order :: orders_from rest w'
  end.

(** The world after the calls [generate_order i], for [i] along [indices]. *)
Fixpoint world_after {W : Type} `{Platform W} (indices : list Z) (w : W) : W :=
  match indices with
  | [] => w
  | i :: rest => world_after rest (snd (generate_order i w))
  end.

(** The number a digit sequence denotes, read after the digits of [acc]. *)
Fixpoint uint_value (d : Decimal.uint) (acc : Z) : Z :=
  match d with
  | Decimal.Nil => acc
  | Decimal.D0 l => uint_value l (10 * acc)
  | Decimal.D1 l => uint_value l (10 * acc + 1)
  | Decimal.D2 l => uint_value l (10 * acc + 2)
  | Decimal.D3 l => uint_value l (10 * acc + 3)
  | Decimal.D4 l => uint_value l (10 * acc + 4)
  | Decimal.D5 l => uint_value l (10 * acc + 5)
  | Decimal.D6 l => uint_value l (10 * acc + 6)
  | Decimal.D7 l => uint_value l (10 * acc + 7)
  | Decimal.D8 l => uint_value l (10 * acc + 8)
  | Decimal.D9 l => uint_value l (10 * acc + 9)
  end.

(** [s.isdigit()] on ASCII text, true of the empty text as well. *)
Fixpoint all_digits (s : string) : bool :=
  match s with
  | EmptyString => true
  | String c rest => is_digit c && all_digits rest
  end.

(** No character of [s] is white space. *)
Fixpoint no_space (s : string) : bool :=
  match s with
  | EmptyString => true
  | String c rest => negb (is_space c) && no_space rest
  end.

(** Every character of [s] is ASCII. *)
Fixpoint is_ascii (s : string) : bool :=
  match s with
  | EmptyString => true
  | String c rest => (N_of_ascii c <? 128)%N && is_ascii rest
  end.

(** The digit limit of [int] lets a numeral of [digits] digits through. *)
Definition within_limit {W : Type} `{Platform W} (digits : nat) : Prop :=
  Z.of_nat digits <= 640 \/ int_max_str_digits <= 0
  \/ Z.of_nat digits <= int_max_str_digits.

(** The first digit is not zero. *)
Definition leading_nonzero (d : Decimal.uint) : bool :=
  match d with
  | Decimal.Nil | Decimal.D0 _ => false
  | _ => true
  end.

(** [list(d.keys())]. *)
Definition dict_keys (v : pyval) : list string :=
  match v with
  | PDict d => map fst d
  | _ => []
  end.

Definition is_upper (c : ascii) : bool :=
  let n := N_of_ascii c in ((65 <=? n) && (n <=? 90))%N.

(** No character of [s] is an upper-case letter. *)
Fixpoint no_upper (s : string) : bool :=
  match s with
  | EmptyString => true
  | String c rest => negb (is_upper c) && no_upper rest
  end.

(** The fields of an address that do not name the person or the place:
    a street number of one to three digits before [" Main Street"], no
    second line, a postal code of five digits, the country, and a phone
    number [+1-AAA-555-SSSS]. *)
Definition formatted_address (address : pyval) : Prop :=
  exists street postal area subscriber : string,
    dict_get "address_line1" address = Some (PStr (street ++ " Main Street"))
    /\ (1 <= String.length street <= 3)%nat /\ all_digits street = true
    /\ dict_get "address_line2" address = Some PNone
    /\ dict_get "postal_code" address = Some (PStr postal)
    /\ String.length postal = 5%nat /\ all_digits postal = true
    /\ dict_get "country" address = Some (PStr "USA")
    /\ dict_get "phone_number" address
       = Some (PStr ("+1-" ++ area ++ "-555-" ++ subscriber))
    /\ String.length area = 3%nat /\ all_digits area = true
    /\ String.length subscriber = 4%nat /\ all_digits subscriber = true.

Definition ORDER_KEYS : list string :=
  ["external_order_id"; "customer_id"; "order_type"; "channel"; "order_lines";
   "billing_address"; "notes"; "timestamp"].

Definition LINE_KEYS : list string :=
  ["line_number"; "item_id"; "item_name"; "item_description"; "quantity";
   "unit_price"; "currency"; "tax_rate"; "discount_amount"; "fulfillment_type";
   "estimated_ship_date"; "estimated_delivery_date"; "shipping_address"].

Definition ADDRESS_KEYS : list string :=
  ["full_name"; "address_line1"; "address_line2"; "city"; "state_province";
   "postal_code"; "country"; "phone_number"; "email"].

(** ** Facts about text *)

Lemma one_line_app (a b : string) :
  one_line (a ++ b) = one_line a && one_line b.
Proof.
  induction a as [|c a IH]; simpl.
  - reflexivity.
  - rewrite IH. apply andb_assoc.
Qed.

Lemma one_line_digits (d : Decimal.uint) :
  one_line (NilEmpty.string_of_uint d) = true.
Proof. induction d; simpl; auto. Qed.

Lemma one_line_str (n : Z) : one_line (str n) = true.
Proof.
  unfold str, NilZero.string_of_int, NilZero.string_of_uint.
  destruct (Z.to_int n) as [d|d]; destruct d; simpl;
    auto using one_line_digits.
Qed.

Lemma one_line_zeros (n : nat) : one_line (zeros n) = true.
Proof. induction n; simpl; auto. Qed.

(** ** A scripted platform

    A platform whose draws are read off a list, for running the model on
    chosen inputs. Each draw takes the next number of the script (0 once it
    is used up); the clock stands still. The Unicode tables and the digit
    limit are those of CPython 3.11. *)
Module Scripted.

Record world : Type := World {
  script : list Z;
  clock : Z;  (* seconds since 1970-01-01T00:00:00 UTC *)
}.

Definition next : M world Z :=
  fun w =>
    match script w with
    | [] => (0, w)
    | x :: rest => (x, World rest (clock w))
    end.

Definition below (n : Z) : M world Z :=
  x <- next ;; ret (x mod n).

(** Hundredths: the script number [x] gives [(x mod 100) / 100]. *)
Definition coin : M world float :=
  x <- next ;;
  ret (PrimFloat.of_uint63 (Uint63.of_Z (x mod 100)) / 100)%float.

Fixpoint hex (width : nat) (n : Z) : string :=
  match width with
  | O => EmptyString
  | S k => hex k (n / 16) ++ String (hex_digit (Z.to_N (n mod 16))) EmptyString
  end.

(** 128 bits off the script, version and variant set as [uuid.uuid4] does,
    printed in the 8-4-4-4-12 form. *)
Definition uuid_text : M world string :=
  x <- next ;;
  let n := x mod 2 ^ 128 in
  let n := Z.lor (Z.land n (Z.lnot (Z.shiftl 0xc000 48))) (Z.shiftl 0x8000 48) in
  let n := Z.lor (Z.land n (Z.lnot (Z.shiftl 0xf000 64))) (Z.shiftl 4 76) in
  ret (hex 8 (Z.shiftr n 96) ++ "-" ++ hex 4 (Z.shiftr n 80 mod 2 ^ 16) ++ "-"
       ++ hex 4 (Z.shiftr n 64 mod 2 ^ 16) ++ "-" ++ hex 4 (Z.shiftr n 48 mod 2 ^ 16)
       ++ "-" ++ hex 12 (n mod 2 ^ 48)).

Definition now : M world Z := fun w => (clock w, w).

Definition plus_days (d k : Z) : Z := d + 86400 * k.

(** Year, month and day of a day number counted from 1970-01-01. *)
Definition civil_from_days (days : Z) : Z * Z * Z :=
  let z := days + 719468 in
  let era := z / 146097 in
  let doe := z mod 146097 in
  let yoe := (doe - doe / 1460 + doe / 36524 - doe / 146096) / 365 in
  let doy := doe - (365 * yoe + yoe / 4 - yoe / 100) in
  let mp := (5 * doy + 2) / 153 in
  let d := doy - (153 * mp + 2) / 5 + 1 in
  let m := if mp <? 10 then mp + 3 else mp - 9 in
  let y := yoe + era * 400 + (if m <=? 2 then 1 else 0) in
  (y, m, d).

Definition pad (width : nat) (n : Z) : string :=
  let digits := str n in zeros (width - String.length digits) ++ digits.

Definition date_text (t : Z) : string :=
  let '(y, m, d) := civil_from_days (t / 86400) in
  pad 4 y ++ "-" ++ pad 2 m ++ "-" ++ pad 2 d.

Definition time_text (t : Z) : string :=
  let s := t mod 86400 in
  pad 2 (s / 3600) ++ ":" ++ pad 2 (s / 60 mod 60) ++ ":" ++ pad 2 (s mod 60).

(** The two formats the generator asks for. *)
Definition format_time (t : Z) (format : string) : string :=
  if String.eqb format "%Y-%m-%d" then date_text t
  else if String.eqb format "%Y-%m-%dT%H:%M:%S" then date_text t ++ "T" ++ time_text t
  else format.

(** [float.__repr__] on the floats the generator prints, which are all
    nearest to a decimal with at most two places: that decimal, with at
    least one place. *)
Definition repr_cents (f : float) : string :=
  match Prim2SF f with
  | S754_finite s m e =>
      let k := if 0 <=? e then Zpos m * 2 ^ e * 100
               else round_half_even (Zpos m * 100) (2 ^ (- e)) in
      (if s then "-" else EmptyString) ++ str (k / 100) ++ "."
      ++ str (k mod 100 / 10)
      ++ (if k mod 10 =? 0 then EmptyString else str (k mod 10))
  | S754_zero s => if s then "-0.0" else "0.0"
  | S754_infinity s => if s then "-inf" else "inf"
  | S754_nan => "nan"
  end.

Lemma below_range (n : Z) (w : world) :
  0 < n -> 0 <= fst (below n w) < n.
Proof.
  intros Hn. unfold below, bind, ret, next.
  destruct (script w); simpl; apply Z.mod_pos_bound; assumption.
Qed.

Lemma repr_cents_one_line (f : float) : one_line (repr_cents f) = true.
Proof.
  unfold repr_cents.
  destruct (Prim2SF f) as [s|s| |s m e]; try (destruct s; reflexivity).
  - reflexivity.
  - rewrite !one_line_app, !one_line_str.
    destruct s; destruct (_ =? 0); simpl; rewrite ?one_line_str; reflexivity.
Qed.

(** The Unicode 14.0 tables (those of CPython 3.11): the code points that
    are white space, and the code point of the digit zero of every decimal
    digit run, each followed by its digits one to nine. *)
Definition WHITE_SPACE : list N :=
  [0x9; 0xa; 0xb; 0xc; 0xd; 0x1c; 0x1d; 0x1e;
   0x1f; 0x20; 0x85; 0xa0; 0x1680; 0x2000; 0x2001; 0x2002;
   0x2003; 0x2004; 0x2005; 0x2006; 0x2007; 0x2008; 0x2009; 0x200a;
   0x2028; 0x2029; 0x202f; 0x205f; 0x3000]%N.

Definition DECIMAL_ZEROS : list N :=
  [0x30; 0x660; 0x6f0; 0x7c0; 0x966; 0x9e6; 0xa66; 0xae6;
   0xb66; 0xbe6; 0xc66; 0xce6; 0xd66; 0xde6; 0xe50; 0xed0;
   0xf20; 0x1040; 0x1090; 0x17e0; 0x1810; 0x1946; 0x19d0; 0x1a80;
   0x1a90; 0x1b50; 0x1bb0; 0x1c40; 0x1c50; 0xa620; 0xa8d0; 0xa900;
   0xa9d0; 0xa9f0; 0xaa50; 0xabf0; 0xff10; 0x104a0; 0x10d30; 0x11066;
   0x110f0; 0x11136; 0x111d0; 0x112f0; 0x11450; 0x114d0; 0x11650; 0x116c0;
   0x11730; 0x118e0; 0x11950; 0x11c50; 0x11d50; 0x11da0; 0x16a60; 0x16ac0;
   0x16b50; 0x1d7ce; 0x1d7d8; 0x1d7e2; 0x1d7ec; 0x1d7f6; 0x1e140; 0x1e2f0;
   0x1e950; 0x1fbf0]%N.

Definition isspace (ch : N) : bool := existsb (N.eqb ch) WHITE_SPACE.

Fixpoint decimal_in (zeros : list N) (ch : N) : option Z :=
  match zeros with
  | [] => None
  | zero :: rest =>
      if ((zero <=? ch) && (ch <? zero + 10))%N then Some (Z.of_N (ch - zero))
      else decimal_in rest ch
  end.

Definition decimal (ch : N) : option Z := decimal_in DECIMAL_ZEROS ch.

Lemma decimal_digit (ch : N) (d : Z) : decimal ch = Some d -> 0 <= d <= 9.
Proof.
  unfold decimal. induction DECIMAL_ZEROS as [|zero rest IH]; cbn [decimal_in].
  - discriminate.
  - destruct ((zero <=? ch) && (ch <? zero + 10))%N eqn:Hin; [|exact IH].
    apply andb_prop in Hin as [Hlow Hhigh].
    apply N.leb_le in Hlow. apply N.ltb_lt in Hhigh.
    intros [= <-]. lia.
Qed.

(** A script and a clock reading (2024-01-01T00:00:00) to run the model
    on: Sarah Brown of New York orders two lines. *)
Definition sample : world :=
  World [3; 4; 1; 1;
         0; 2; 10; 1; 122; 54321; 455; 234;
         6; 0; 50; 2; 7; 8; 9; 10;
         12345678901234567890123456789012345678; 41; 1; 2; 99; 100; 101; 102]
        1704067200.

#[global] Instance platform : Platform world := {|
  randbelow := below;
  randbelow_range := below_range;
  random := coin;
  uuid4 := uuid_text;
  datetime := Z;
  datetime_now := now;
  add_days := plus_days;
  strftime := format_time;
  float_repr := repr_cents;
  float_repr_one_line := repr_cents_one_line;
  unicode_isspace := isspace;
  unicode_decimal := decimal;
  unicode_decimal_digit := decimal_digit;
  int_max_str_digits := 4300;
|}.

End Scripted.

(** ** The model on concrete inputs *)

Example round_tenth_of_prices :
  map (fun p : product => let '(_, _, price, _) := p in py_round (price * 0.1) 2)
    PRODUCTS
  = [25; 35; 2; 16; 7.8; 15; 349.9; 90; 75; 130; 42.9; 39.9; 35; 9; 17.9]%float.
Proof. vm_compute. reflexivity. Qed.

Example round_halves_to_even :
  (py_round 0.125 2, py_round 0.375 2, py_round 2.675 2, py_round 2.5 0)
  = (0.12, 0.38, 2.67, 2)%float.
Proof. vm_compute. reflexivity. Qed.

Example format_05d_pads : (format_05d 42, format_05d 10000) = ("00042", "10000").
Proof. reflexivity. Qed.

Example py_int_accepts :
  map py_int ["12"; " 12 "; "-3"; "+4"; "1_000"; "007"]
  = [Some 12; Some 12; Some (-3); Some 4; Some 1000; Some 7].
Proof. reflexivity. Qed.

Example py_int_rejects :
  map py_int ["abc"; "12x"; "1.5"; "0x10"; "1__0"; "_1"; "1_"; "+"; "- 5";
              EmptyString]
  = [None; None; None; None; None; None; None; None; None; None].
Proof. reflexivity. Qed.

Example int_of_text_accepts :
  map int_of_text
    [codepoints "12"; codepoints " -3 "; [0xa0; 53]%N; [0x661; 0x662]%N;
     [43; 0x661; 95; 0x662]%N; [0x2003; 55]%N; [49; 0x3000]%N;
     [0x967; 0x968; 0x969]%N; [45; 0x661]%N]
  = [Some 12; Some (-3); Some 5; Some 12; Some 12; Some 7; Some 1; Some 123;
     Some (-1)].
Proof. vm_compute. reflexivity. Qed.

Example int_of_text_rejects :
  map int_of_text
    [codepoints "abc"; [0x1c; 49; 50]%N; [0x1c; 49; 50; 0xa0]%N; [49; 50; 0]%N;
     [0x7f; 49]%N; [0xb2]%N; [0x661; 0x6f2; 0x4e00]%N; []]
  = [None; None; None; None; None; None; None; None].
Proof. vm_compute. reflexivity. Qed.

Example int_of_text_digit_limit :
  map int_of_text
    [repeat 48%N 4300; repeat 48%N 4301; 49%N :: repeat 48%N 4300;
     45%N :: repeat 0x661%N 4300; 45%N :: repeat 0x661%N 4301]
  = [Some 0; None; None; Some (- ((10 ^ 4300 - 1) / 9)); None].
Proof. vm_compute. reflexivity. Qed.

Example lines_of_a_stream :
  lines ("ab" ++ String newline ("c" ++ String newline "d")) = ["ab"; "c"; "d"].
Proof. reflexivity. Qed.

Example json_of_a_list :
  json_dumps (PList [PInt 1; PNone; PFloat 7.8; PList []]) = "[1,null,7.8,[]]".
Proof. vm_compute. reflexivity. Qed.

Example sample_order_fields :
  let order := fst (generate_order 7 Scripted.sample) in
  dict_get "customer_id" order = Some (PStr "CUST-00042")
  /\ dict_get "order_type" order = Some (PStr "GUEST")
  /\ dict_get "channel" order = Some (PStr "API")
  /\ dict_get "notes" order = Some (PStr "Order #7 - Generated for testing")
  /\ dict_get "timestamp" order = Some (PStr "2024-01-01T00:00:00")
  /\ dict_get "external_order_id" order
     = Some (PStr "0949b0f6-f002-4313-8449-9050de38f34e").
Proof. vm_compute. repeat split. Qed.

Example sample_order_second_line :
  match dict_get "order_lines" (fst (generate_order 7 Scripted.sample)) with
  | Some (PList [_; line]) =>
      dict_get "line_number" line = Some (PInt 2)
      /\ dict_get "item_id" line = Some (PInt 1000000007)
      /\ dict_get "unit_price" line = Some (PFloat 3499)
      /\ dict_get "discount_amount" line = Some PNone
      /\ dict_get "estimated_ship_date" line = Some (PStr "2024-01-02")
      /\ dict_get "estimated_delivery_date" line = Some (PStr "2024-01-05")
  | _ => False
  end.
Proof. vm_compute. repeat split. Qed.

Example sample_addresses :
  let order := fst (generate_order 7 Scripted.sample) in
  dict_get "billing_address" order
    = Some (address_of "Sarah Brown" "New York" "NY" "sarah.brown@example.com"
              100 10100 201 1102)
  /\ match dict_get "order_lines" order with
     | Some (PList [line1; line2]) =>
         dict_get "shipping_address" line1
           = Some (address_of "Sarah Brown" "New York" "NY"
                     "sarah.brown@example.com" 123 64321 555 1234)
         /\ dict_get "shipping_address" line2
            = Some (address_of "Sarah Brown" "New York" "NY"
                      "sarah.brown@example.com" 8 10008 109 1010)
     | _ => False
     end.
Proof. vm_compute. repeat split. Qed.

Example default_count_is_ten :
  let (how, p) := main [codepoints "generate-orders.py"] (start Scripted.sample) in
  how = Completed /\ List.length (lines (stdout p)) = 10%nat
  /\ stderr p = EmptyString.
Proof. vm_compute. repeat split. Qed.

(** ** What a run of the generator returns *)

Section Runs.
Context {W : Type} `{Platform W}.

Lemma bind_run {S A B} (m : M S A) (k : A -> M S B) (s : S) :
  bind m k s = k (fst (m s)) (snd (m s)).
Proof. unfold bind. destruct (m s); reflexivity. Qed.

Lemma choice_In {A} (seq : list A) (d : A) (w : W) :
  seq <> [] -> In (fst (choice seq d w)) seq.
Proof.
  intros Hne. unfold choice. rewrite bind_run. cbn [ret fst].
  assert (0 < Z.of_nat (List.length seq)) as Hlen
    by (destruct seq; [congruence | cbn [List.length]; lia]).
  pose proof (randbelow_range _ w Hlen) as Hr.
  apply nth_In. lia.
Qed.

Lemma randint_range (a b : Z) (w : W) :
  a <= b -> a <= fst (randint a b w) <= b.
Proof.
  intros Hab. unfold randint. rewrite bind_run. cbn [ret fst].
  pose proof (randbelow_range (b - a + 1) w ltac:(lia)). lia.
Qed.

(** One pass through the loop body appends one line, line [i]. *)
Lemma order_line_run (full_name email city state ship_date delivery_date : string)
    (i : Z) (order_lines : list pyval) (w : W) :
  exists line,
    fst (order_line full_name email city state ship_date delivery_date
           i order_lines w) = (order_lines ++ [line])%list
    /\ is_line full_name email city state ship_date delivery_date i line.
Proof.
  unfold order_line. rewrite bind_run.
  pose proof (choice_In PRODUCTS no_product w ltac:(discriminate)) as Hp.
  destruct (fst (choice PRODUCTS no_product w)) as [[[product_id name] price] desc]
    eqn:Ep.
  set (w1 := snd (choice PRODUCTS no_product w)).
  rewrite bind_run.
  pose proof (randint_range 1 3 w1 ltac:(lia)) as Hq.
  set (w2 := snd (randint 1 3 w1)).
  rewrite bind_run. set (w3 := snd (random w2)).
  rewrite bind_run.
  pose proof (choice_In FULFILLMENT_TYPES EmptyString w3 ltac:(discriminate)) as Hf.
  set (w4 := snd (choice FULFILLMENT_TYPES EmptyString w3)).
  rewrite bind_run.
  pose proof (randint_range 1 999 w4 ltac:(lia)) as Hs.
  set (w5 := snd (randint 1 999 w4)).
  rewrite bind_run.
  pose proof (randint_range 10000 99999 w5 ltac:(lia)) as Hpo.
  set (w6 := snd (randint 10000 99999 w5)).
  rewrite bind_run.
  pose proof (randint_range 100 999 w6 ltac:(lia)) as Ha.
  set (w7 := snd (randint 100 999 w6)).
  rewrite bind_run.
  pose proof (randint_range 1000 9999 w7 ltac:(lia)) as Hsb.
  cbn [ret fst].
  eexists. split; [reflexivity|].
  exists (product_id, name, price, desc), (fst (randint 1 3 w1)), (fst (random w2)),
    (fst (choice FULFILLMENT_TYPES EmptyString w3)), (fst (randint 1 999 w4)),
    (fst (randint 10000 99999 w5)), (fst (randint 100 999 w6)),
    (fst (randint 1000 9999 w7)).
  unfold address_draws. repeat split; try assumption; try lia.
Qed.

(** The discount of a line follows the coin of that line, which is the
    third draw of the pass: the rounded tenth of the price when the coin is
    below 0.2, and [None] when it is not. *)
Lemma order_line_discount (full_name email city state ship_date delivery_date : string)
    (i : Z) (order_lines : list pyval) (w : W) :
  let w1 := snd (choice PRODUCTS no_product w) in
  let u := fst (random (snd (randint 1 3 w1))) in
  let '(_, _, price, _) := fst (choice PRODUCTS no_product w) in
  exists line,
    fst (order_line full_name email city state ship_date delivery_date
           i order_lines w) = (order_lines ++ [line])%list
    /\ dict_get "discount_amount" line
       = Some (if (u <? 0.2)%float
               then PFloat (py_round (price * 0.1)%float 2) else PNone).
Proof.
  unfold order_line. rewrite bind_run.
  destruct (fst (choice PRODUCTS no_product w)) as [[[product_id name] price] desc].
  rewrite !bind_run. cbn [ret fst].
  eexists. split; reflexivity.
Qed.

(** The loop appends one line per index, in order. *)
Lemma order_lines_run (full_name email city state ship_date delivery_date : string)
    (indices : list Z) (order_lines : list pyval) (w : W) :
  exists new,
    fst (for_each indices
           (order_line full_name email city state ship_date delivery_date)
           order_lines w) = (order_lines ++ new)%list
    /\ Forall2 (is_line full_name email city state ship_date delivery_date)
         indices new.
Proof.
  revert order_lines w.
  induction indices as [|i rest IH]; intros order_lines w.
  - exists []. split; [cbn; now rewrite app_nil_r | constructor].
  - cbn [for_each]. rewrite bind_run.
    destruct (order_line_run full_name email city state ship_date delivery_date
                i order_lines w) as (line & Hrun & Hline).
    rewrite Hrun.
    destruct (IH (order_lines ++ [line])%list
                (snd (order_line full_name email city state ship_date
                        delivery_date i order_lines w))) as (new & Hnew & Hall).
    exists (line :: new). split.
    + rewrite Hnew, <- app_assoc. reflexivity.
    + constructor; assumption.
Qed.
End Runs.

Section OrderRuns.
Context {W : Type} `{Platform W}.

Lemma py_range_length (a b : Z) : List.length (py_range a b) = Z.to_nat (b - a).
Proof. unfold py_range. now rewrite length_map, length_seq. Qed.

Lemma generate_order_run (order_num : Z) (w : W) :
  is_order order_num (fst (generate_order order_num w)).
Proof.
  unfold generate_order. rewrite bind_run.
  pose proof (choice_In FIRST_NAMES EmptyString w ltac:(discriminate)) as Hfirst.
  set (first_name := fst (choice FIRST_NAMES EmptyString w)) in *.
  set (w1 := snd (choice FIRST_NAMES EmptyString w)).
  rewrite bind_run.
  pose proof (choice_In LAST_NAMES EmptyString w1 ltac:(discriminate)) as Hlast.
  set (last_name := fst (choice LAST_NAMES EmptyString w1)) in *.
  set (w2 := snd (choice LAST_NAMES EmptyString w1)).
  rewrite bind_run.
  pose proof (choice_In CITIES_STATES (EmptyString, EmptyString) w2
                ltac:(discriminate)) as Hcity.
  destruct (fst (choice CITIES_STATES (EmptyString, EmptyString) w2))
    as [city state].
  set (w3 := snd (choice CITIES_STATES (EmptyString, EmptyString) w2)).
  rewrite bind_run.
  set (now := fst (datetime_now w3)). set (w4 := snd (datetime_now w3)).
  rewrite bind_run.
  pose proof (randint_range 1 3 w4 ltac:(lia)) as Hnum.
  set (num_lines := fst (randint 1 3 w4)) in *.
  set (w5 := snd (randint 1 3 w4)).
  rewrite bind_run.
  destruct (order_lines_run (first_name ++ " " ++ last_name)
              (lower first_name ++ "." ++ lower last_name ++ "@example.com")
              city state (strftime (add_days now 1) "%Y-%m-%d")
              (strftime (add_days now 4) "%Y-%m-%d")
              (py_range 1 (num_lines + 1)) [] w5) as (order_lines & Hrun & Hlines).
  rewrite Hrun. cbn [app].
  match goal with |- context [snd ?run] =>
    match run with for_each _ _ _ _ => set (w6 := snd run) end end.
  assert (List.length order_lines = Z.to_nat num_lines) as Hlen.
  { rewrite <- (Forall2_length Hlines), py_range_length. f_equal. lia. }
  rewrite bind_run. set (w7 := snd (uuid4 w6)).
  rewrite bind_run.
  pose proof (randint_range 1 10000 w7 ltac:(lia)) as Hcust.
  set (w8 := snd (randint 1 10000 w7)).
  rewrite bind_run.
  pose proof (choice_In ORDER_TYPES EmptyString w8 ltac:(discriminate)) as Htype.
  set (w9 := snd (choice ORDER_TYPES EmptyString w8)).
  rewrite bind_run.
  pose proof (choice_In CHANNELS EmptyString w9 ltac:(discriminate)) as Hchan.
  set (w10 := snd (choice CHANNELS EmptyString w9)).
  rewrite bind_run.
  pose proof (randint_range 1 999 w10 ltac:(lia)) as Hs.
  set (w11 := snd (randint 1 999 w10)).
  rewrite bind_run.
  pose proof (randint_range 10000 99999 w11 ltac:(lia)) as Hpo.
  set (w12 := snd (randint 10000 99999 w11)).
  rewrite bind_run.
  pose proof (randint_range 100 999 w12 ltac:(lia)) as Ha.
  set (w13 := snd (randint 100 999 w12)).
  rewrite bind_run.
  pose proof (randint_range 1000 9999 w13 ltac:(lia)) as Hsb.
  cbn [ret fst].
  exists first_name, last_name, city, state, now, order_lines,
    (fst (uuid4 w6)), (fst (randint 1 10000 w7)),
    (fst (choice ORDER_TYPES EmptyString w8)),
    (fst (choice CHANNELS EmptyString w9)), (fst (randint 1 999 w10)),
    (fst (randint 10000 99999 w11)), (fst (randint 100 999 w12)),
    (fst (randint 1000 9999 w13)).
  cbn zeta.
  replace (Z.of_nat (List.length order_lines)) with num_lines by lia.
  unfold address_draws.
  repeat split; try assumption; try lia.
Qed.
End OrderRuns.

(** ** Properties of the generated record *)

Section OrderProperties.
Context {W : Type} `{Platform W}.

Lemma Forall2_Forall_r {A B} (P : A -> B -> Prop) (Q : B -> Prop)
    (xs : list A) (ys : list B) :
  (forall x y, P x y -> Q y) -> Forall2 P xs ys -> Forall Q ys.
Proof. intros HPQ Hall. induction Hall; constructor; eauto. Qed.

(** C2. Whatever the argument and the state of the random source, the
    record [generate_order] returns has an [order_lines] list of at least
    one and at most three entries. *)
Theorem order_lines_between_one_and_three (order_num : Z) (w : W) :
  exists order_lines,
    dict_get "order_lines" (fst (generate_order order_num w))
      = Some (PList order_lines)
    /\ (1 <= List.length order_lines <= 3)%nat.
Proof.
  destruct (generate_order_run order_num w)
    as (first_name & last_name & city & state & now & order_lines & xid & customer
        & order_type & channel & street & postal & area & subscriber
        & -> & _ & _ & _ & Hlen & _).
  exists order_lines. split; [reflexivity | exact Hlen].
Qed.

(** C3. The [line_number] fields of the order lines, read in order, are
    1, 2, ..., [len(order_lines)]. *)
Theorem line_numbers_count_from_one (order_num : Z) (w : W) :
  exists order_lines,
    dict_get "order_lines" (fst (generate_order order_num w))
      = Some (PList order_lines)
    /\ map (dict_get "line_number") order_lines
       = map (fun i => Some (PInt i))
           (py_range 1 (Z.of_nat (List.length order_lines) + 1)).
Proof.
  destruct (generate_order_run order_num w)
    as (first_name & last_name & city & state & now & order_lines & xid & customer
        & order_type & channel & street & postal & area & subscriber
        & -> & _ & _ & _ & _ & Hlines & _).
  exists order_lines. split; [reflexivity|].
  induction Hlines as [|i line indices rest Hline _ IH]; [reflexivity|].
  cbn [map]. rewrite IH. f_equal.
  destruct Hline as ([[[product_id name] price] desc] & ? & ? & ? & ? & ? & ? & ?
                     & -> & _).
  reflexivity.
Qed.

(** C4. The billing address and the shipping address of every line carry
    the same [full_name], the same [email] and the same
    ([city], [state_province]) pair: one name pair and one row of
    [CITIES_STATES], drawn once for the order. *)
Theorem addresses_share_identity (order_num : Z) (w : W) :
  exists order_lines billing first_name last_name city state,
    let order := fst (generate_order order_num w) in
    let full_name := first_name ++ " " ++ last_name in
    let email := lower first_name ++ "." ++ lower last_name ++ "@example.com" in
    dict_get "order_lines" order = Some (PList order_lines)
    /\ dict_get "billing_address" order = Some billing
    /\ In first_name FIRST_NAMES /\ In last_name LAST_NAMES
    /\ In (city, state) CITIES_STATES
    /\ has_identity billing full_name email city state
    /\ Forall (fun line =>
                 exists shipping,
                   dict_get "shipping_address" line = Some shipping
                   /\ has_identity shipping full_name email city state)
         order_lines.
Proof.
  destruct (generate_order_run order_num w)
    as (first_name & last_name & city & state & now & order_lines & xid & customer
        & order_type & channel & street & postal & area & subscriber
        & -> & Hfirst & Hlast & Hcity & _ & Hlines & _).
  eexists order_lines, _, first_name, last_name, city, state. cbn zeta.
  split; [reflexivity|]. split; [reflexivity|].
  repeat (split; [assumption|]).
  split; [repeat split|].
  eapply Forall2_Forall_r; [|exact Hlines].
  intros i line ([[[product_id name] price] desc] & ? & ? & ? & ? & ? & ? & ?
                 & -> & _).
  eexists. split; [reflexivity|]. repeat split.
Qed.

(** C6. On every order line the fields [item_id], [item_name],
    [unit_price] and [item_description] are those of one row of
    [PRODUCTS], which has 15 rows. *)
Theorem line_items_come_from_one_product (order_num : Z) (w : W) :
  List.length PRODUCTS = 15%nat
  /\ exists order_lines,
    dict_get "order_lines" (fst (generate_order order_num w))
      = Some (PList order_lines)
    /\ Forall (fun line =>
                 exists product_id name price desc,
                   In (product_id, name, price, desc) PRODUCTS
                   /\ dict_get "item_id" line = Some (PInt product_id)
                   /\ dict_get "item_name" line = Some (PStr name)
                   /\ dict_get "unit_price" line = Some (PFloat price)
                   /\ dict_get "item_description" line = Some (PStr desc))
         order_lines.
Proof.
  split; [reflexivity|].
  destruct (generate_order_run order_num w)
    as (first_name & last_name & city & state & now & order_lines & xid & customer
        & order_type & channel & street & postal & area & subscriber
        & -> & _ & _ & _ & _ & Hlines & _).
  exists order_lines. split; [reflexivity|].
  eapply Forall2_Forall_r; [|exact Hlines].
  intros i line ([[[product_id name] price] desc] & ? & ? & ? & ? & ? & ? & ?
                 & -> & Hp & _).
  exists product_id, name, price, desc. repeat split. exact Hp.
Qed.

(** C7. On every order line [discount_amount] is either absent, which the
    record writes as [None], or equal to [round(unit_price * 0.1, 2)] for
    the [unit_price] of that same line. *)
Theorem discount_is_none_or_tenth_of_price (order_num : Z) (w : W) :
  exists order_lines,
    dict_get "order_lines" (fst (generate_order order_num w))
      = Some (PList order_lines)
    /\ Forall (fun line =>
                 exists price,
                   dict_get "unit_price" line = Some (PFloat price)
                   /\ (dict_get "discount_amount" line = Some PNone
                       \/ dict_get "discount_amount" line
                          = Some (PFloat (py_round (price * 0.1)%float 2))))
         order_lines.
Proof.
  destruct (generate_order_run order_num w)
    as (first_name & last_name & city & state & now & order_lines & xid & customer
        & order_type & channel & street & postal & area & subscriber
        & -> & _ & _ & _ & _ & Hlines & _).
  exists order_lines. split; [reflexivity|].
  eapply Forall2_Forall_r; [|exact Hlines].
  intros i line ([[[product_id name] price] desc] & ? & u & ? & ? & ? & ? & ?
                 & -> & _).
  exists price. split; [reflexivity|].
  cbn. unfold discount_of. destruct (u <? 0.2)%float; auto.
Qed.

(** C9. [order_num] only reaches the note. From one state of the world
    (random source and clock), two calls with different arguments leave
    the world in the same state and return records that are equal once
    their [notes] entry is taken out; the note carries the argument. *)
Theorem order_num_only_sets_notes (n1 n2 : Z) (w : W) :
  snd (generate_order n1 w) = snd (generate_order n2 w)
  /\ dict_remove "notes" (fst (generate_order n1 w))
     = dict_remove "notes" (fst (generate_order n2 w))
  /\ dict_get "notes" (fst (generate_order n1 w))
     = Some (PStr ("Order #" ++ str n1 ++ " - Generated for testing"))
  /\ dict_get "notes" (fst (generate_order n2 w))
     = Some (PStr ("Order #" ++ str n2 ++ " - Generated for testing")).
Proof.
  unfold generate_order, bind.
  repeat match goal with
         | |- context [let (_, _) := ?m in _] => destruct m
         end.
  cbn [ret fst snd]. repeat split.
Qed.
End OrderProperties.

(** ** Shipping and billing addresses *)

(** C5, as stated, fails: on the sample script the first line ships to
    123 Main Street while the bill goes to 100 Main Street. *)
Lemma shipping_address_differs_from_billing :
  ~ shipping_equals_billing (fst (generate_order 7 Scripted.sample)).
Proof.
  intros (order_lines & billing & Hlines & Hbilling & Hall).
  vm_compute in Hlines, Hbilling.
  injection Hlines as <-. injection Hbilling as <-.
  apply Forall_inv in Hall. destruct Hall as (shipping & Hship & Hsame).
  vm_compute in Hship. injection Hship as <-.
  specialize (Hsame "address_line1"). vm_compute in Hsame. discriminate Hsame.
Qed.

Section Addresses.
Context {W : Type} `{Platform W}.

(** C5, amended. The billing address and every shipping address are built
    from the same name, city, state and email, with [address_line2]
    [None] and [country] ["USA"] in all of them; the street number, the
    postal code and the two phone groups are drawn anew for each address,
    each inside its range. *)
Theorem addresses_share_person_and_place (order_num : Z) (w : W) :
  exists order_lines full_name city state email,
    let order := fst (generate_order order_num w) in
    dict_get "order_lines" order = Some (PList order_lines)
    /\ (exists street postal area subscriber,
          dict_get "billing_address" order
            = Some (address_of full_name city state email
                      street postal area subscriber)
          /\ address_draws street postal area subscriber)
    /\ Forall (fun line =>
                 exists street postal area subscriber,
                   dict_get "shipping_address" line
                     = Some (address_of full_name city state email
                               street postal area subscriber)
                   /\ address_draws street postal area subscriber)
         order_lines.
Proof.
  destruct (generate_order_run order_num w)
    as (first_name & last_name & city & state & now & order_lines & xid & customer
        & order_type & channel & street & postal & area & subscriber
        & -> & _ & _ & _ & _ & Hlines & _ & _ & _ & Hdraws).
  eexists order_lines, _, city, state, _. cbn zeta.
  split; [reflexivity|]. split.
  - exists street, postal, area, subscriber. split; [reflexivity | exact Hdraws].
  - eapply Forall2_Forall_r; [|exact Hlines].
    intros i line ([[[product_id name] price] desc] & ? & ? & ?
                   & s & po & a & sb & -> & _ & _ & _ & Hd).
    exists s, po, a, sb. split; [reflexivity | exact Hd].
Qed.
End Addresses.

(** ** The serialized text *)

Lemma append_assoc (a b c : string) : (a ++ b) ++ c = a ++ b ++ c.
Proof. induction a as [|x a IH]; simpl; [reflexivity | now rewrite IH]. Qed.

Lemma append_empty_r (a : string) : a ++ EmptyString = a.
Proof. induction a as [|x a IH]; simpl; [reflexivity | now rewrite IH]. Qed.

Lemma occurs_in_refl (s : string) : occurs_in s s.
Proof. exists EmptyString, EmptyString. now rewrite append_empty_r. Qed.

Lemma occurs_in_trans (s t u : string) :
  occurs_in s t -> occurs_in t u -> occurs_in s u.
Proof.
  intros (a & b & ->) (c & d & ->).
  exists (c ++ a), (b ++ d). now rewrite !append_assoc.
Qed.

Lemma occurs_in_between (s a b : string) : occurs_in s (a ++ s ++ b).
Proof. now exists a, b. Qed.

Lemma occurs_in_context (s t a b : string) :
  occurs_in s t -> occurs_in s (a ++ t ++ b).
Proof. intros Hst. eapply occurs_in_trans; [exact Hst | apply occurs_in_between]. Qed.

Lemma occurs_in_join (sep x : string) (parts : list string) :
  In x parts -> occurs_in x (join sep parts).
Proof.
  induction parts as [|y rest IH]; intros Hin; [contradiction|].
  destruct rest as [|z rest].
  - destruct Hin as [->|[]]. apply occurs_in_refl.
  - change (join sep (y :: z :: rest)) with (y ++ sep ++ join sep (z :: rest)).
    destruct Hin as [->|Hin].
    + apply (occurs_in_between x EmptyString).
    + destruct (IH Hin) as (a & b & ->).
      exists (y ++ sep ++ a), b. now rewrite !append_assoc.
Qed.

Section Serialized.
Context {W : Type} `{Platform W}.

Lemma json_dumps_dict (d : list (string * pyval)) :
  json_dumps (PDict d)
  = "{" ++ join "," (map (fun kv => dumps_item (fst kv) (snd kv)) d) ++ "}".
Proof.
  cbn [json_dumps].
  rewrite (map_ext _ (fun kv => dumps_item (fst kv) (snd kv))); [reflexivity|].
  now intros [k x].
Qed.

(** An item of a dict stands in the text of the dict. *)
Lemma item_occurs (k : string) (x : pyval) (d : list (string * pyval)) :
  In (k, x) d -> occurs_in (dumps_item k x) (json_dumps (PDict d)).
Proof.
  intros Hin. rewrite json_dumps_dict.
  apply occurs_in_context, occurs_in_join.
  apply (in_map (fun kv => dumps_item (fst kv) (snd kv)) _ _ Hin).
Qed.

(** An element of a list stands in the text of the list. *)
Lemma element_occurs (x : pyval) (l : list pyval) :
  In x l -> occurs_in (json_dumps x) (json_dumps (PList l)).
Proof.
  intros Hin. cbn [json_dumps].
  apply occurs_in_context, occurs_in_join, in_map, Hin.
Qed.

(** C10. Every order line has the key [discount_amount]: its value is
    [None] when no discount was drawn and the rounded amount otherwise,
    never a missing key. So the text of the line holds a
    ["discount_amount":] item (with [null] for [None]), and the text of
    the order holds the text of each of its lines. *)
Theorem discount_amount_key_always_present (order_num : Z) (w : W) :
  dumps_item "discount_amount" PNone
    = String quote "discount_amount" ++ String quote ":null"
  /\ exists order_lines,
    let order := fst (generate_order order_num w) in
    dict_get "order_lines" order = Some (PList order_lines)
    /\ Forall (fun line =>
                 exists value,
                   dict_get "discount_amount" line = Some value
                   /\ (value = PNone \/ exists amount, value = PFloat amount)
                   /\ occurs_in (dumps_item "discount_amount" value)
                        (json_dumps line)
                   /\ occurs_in (json_dumps line) (json_dumps order))
         order_lines.
Proof.
  split; [reflexivity|].
  destruct (generate_order_run order_num w)
    as (first_name & last_name & city & state & now & order_lines & xid & customer
        & order_type & channel & street & postal & area & subscriber
        & -> & _ & _ & _ & _ & Hlines & _).
  exists order_lines. cbn zeta. split; [reflexivity|].
  assert (forall line, In line order_lines ->
            occurs_in (json_dumps line)
              (json_dumps (order_of xid ("CUST-" ++ format_05d customer) order_type
                 channel order_lines
                 (address_of (first_name ++ " " ++ last_name) city state
                    (lower first_name ++ "." ++ lower last_name ++ "@example.com")
                    street postal area subscriber)
                 ("Order #" ++ str order_num ++ " - Generated for testing")
                 (strftime now "%Y-%m-%dT%H:%M:%S")))) as Hinside.
  { intros line Hin.
    eapply occurs_in_trans; [apply element_occurs, Hin|].
    eapply occurs_in_trans;
      [| apply (item_occurs "order_lines" (PList order_lines));
         unfold order_of; do 4 right; left; reflexivity].
    unfold dumps_item. exists (dumps_str "order_lines" ++ ":"), EmptyString.
    now rewrite append_empty_r, append_assoc. }
  apply Forall_forall. intros line Hin.
  specialize (Hinside line Hin).
  destruct (proj1 (Forall_forall _ _)
              (Forall2_Forall_r _ (fun l => exists i, is_line _ _ _ _ _ _ i l)
                 _ _ (fun i l Hl => ex_intro _ i Hl) Hlines) line Hin)
    as (i & [[[product_id name] price] desc] & ? & u & ? & ? & ? & ? & ? & -> & _).
  exists (discount_of price u).
  split; [reflexivity|]. split.
  - unfold discount_of. destruct (u <? 0.2)%float; eauto.
  - split; [|exact Hinside].
    apply item_occurs. unfold line_of. do 8 right. left. reflexivity.
Qed.
End Serialized.

(** ** Every serialized value is one line *)

Section PyvalInduction.
Variable P : pyval -> Prop.
Hypothesis HNone : P PNone.
Hypothesis HInt : forall z, P (PInt z).
Hypothesis HFloat : forall f, P (PFloat f).
Hypothesis HStr : forall s, P (PStr s).
Hypothesis HList : forall l, Forall P l -> P (PList l).
Hypothesis HDict : forall d, Forall (fun kv => P (snd kv)) d -> P (PDict d).

(** Induction on values that reaches inside lists and dicts. *)
Fixpoint pyval_nested_ind (v : pyval) : P v :=
  match v with
  | PNone => HNone
  | PInt z => HInt z
  | PFloat f => HFloat f
  | PStr s => HStr s
  | PList l =>
      HList l
        ((fix elements (l : list pyval) : Forall P l :=
            match l with
            | [] => Forall_nil _
            | x :: rest => Forall_cons x (pyval_nested_ind x) (elements rest)
            end) l)
  | PDict d =>
      HDict d
        ((fix items (d : list (string * pyval)) : Forall (fun kv => P (snd kv)) d :=
            match d with
            | [] => Forall_nil _
            | (k, x) :: rest =>
                Forall_cons (P := fun kv => P (snd kv)) (k, x)
                  (pyval_nested_ind x) (items rest)
            end) d)
  end.
End PyvalInduction.

Lemma one_line_escape_char (c : ascii) : one_line (escape_char c) = true.
Proof. destruct c as [[] [] [] [] [] [] [] []]; reflexivity. Qed.

Lemma one_line_dumps_str (s : string) : one_line (dumps_str s) = true.
Proof.
  unfold dumps_str. cbn [one_line]. rewrite one_line_app.
  replace (one_line (escape s)) with true; [reflexivity|].
  induction s as [|c s IH]; [reflexivity|].
  cbn [escape]. now rewrite one_line_app, one_line_escape_char, <- IH.
Qed.

Lemma one_line_join (sep : string) (parts : list string) :
  one_line sep = true -> Forall (fun x => one_line x = true) parts ->
  one_line (join sep parts) = true.
Proof.
  intros Hsep Hall. induction Hall as [|x rest Hx Hrest IH]; [reflexivity|].
  destruct rest as [|y rest]; [exact Hx|].
  change (join sep (x :: y :: rest)) with (x ++ sep ++ join sep (y :: rest)).
  now rewrite !one_line_app, Hx, Hsep, IH.
Qed.

Lemma lines_terminated (l rest : string) :
  one_line l = true -> lines (l ++ String newline rest) = l :: lines rest.
Proof.
  induction l as [|c l IH]; intros Hl.
  - cbn. reflexivity.
  - cbn [one_line] in Hl. apply andb_prop in Hl as [Hc Hl].
    cbn [append lines]. apply negb_true_iff in Hc. rewrite Hc, (IH Hl).
    reflexivity.
Qed.

Lemma lines_emit (texts : list string) :
  Forall (fun t => one_line t = true) texts -> lines (emit texts) = texts.
Proof.
  intros Hall. induction Hall as [|t rest Ht _ IH]; [reflexivity|].
  cbn [emit]. now rewrite (lines_terminated _ _ Ht), IH.
Qed.

Lemma py_range_snoc (a b : Z) : a <= b -> py_range a (b + 1) = (py_range a b ++ [b])%list.
Proof.
  intros Hab. unfold py_range.
  replace (Z.to_nat (b + 1 - a)) with (S (Z.to_nat (b - a))) by lia.
  rewrite seq_S, map_app. cbn [map Nat.add]. do 2 f_equal. lia.
Qed.

(** The multiples of 100 among 1, ..., [count]. *)
Lemma hundreds_up_to (count : Z) :
  0 <= count ->
  filter (fun i => i mod 100 =? 0) (py_range 1 (count + 1))
  = map (fun k => 100 * k) (py_range 1 (count / 100 + 1)).
Proof.
  intros Hcount. rewrite <- (Z2Nat.id count Hcount).
  induction (Z.to_nat count) as [|n IH]; [reflexivity|].
  rewrite Nat2Z.inj_succ. unfold Z.succ.
  rewrite (py_range_snoc 1 (Z.of_nat n + 1)) by lia.
  rewrite filter_app, IH. cbn [filter].
  pose proof (Z.div_mod (Z.of_nat n) 100 ltac:(lia)) as Hn.
  pose proof (Z.mod_pos_bound (Z.of_nat n) 100 ltac:(lia)) as Hr.
  destruct (Z.eqb_spec ((Z.of_nat n + 1) mod 100) 0) as [Hz|Hnz].
  - assert ((Z.of_nat n + 1) / 100 = Z.of_nat n / 100 + 1) as Hq.
    { pose proof (Z.div_mod (Z.of_nat n + 1) 100 ltac:(lia)). lia. }
    rewrite Hq, (py_range_snoc 1 (Z.of_nat n / 100 + 1)), map_app
      by (pose proof (Z.div_pos (Z.of_nat n) 100); lia).
    cbn [map]. do 2 f_equal.
    pose proof (Z.div_mod (Z.of_nat n + 1) 100 ltac:(lia)). lia.
  - assert ((Z.of_nat n + 1) / 100 = Z.of_nat n / 100) as Hq.
    { pose proof (Z.div_mod (Z.of_nat n + 1) 100 ltac:(lia)).
      pose proof (Z.mod_pos_bound (Z.of_nat n + 1) 100 ltac:(lia)). lia. }
    rewrite Hq. now rewrite app_nil_r.
Qed.

(** ** The driver *)

Section Driver.
Context {W : Type} `{Platform W}.

Lemma one_line_dumps_float (f : float) : one_line (dumps_float f) = true.
Proof.
  unfold dumps_float.
  destruct (is_nan f); [reflexivity|].
  destruct (is_infinity f); [destruct (get_sign f); reflexivity|].
  apply float_repr_one_line.
Qed.

Lemma one_line_json_dumps (v : pyval) : one_line (json_dumps v) = true.
Proof.
  induction v as [|z|f|s|l IH|d IH] using pyval_nested_ind.
  - reflexivity.
  - apply one_line_str.
  - apply one_line_dumps_float.
  - apply one_line_dumps_str.
  - cbn [json_dumps]. rewrite !one_line_app, one_line_join; auto.
    apply Forall_map. exact IH.
  - rewrite json_dumps_dict, !one_line_app, one_line_join; auto.
    apply Forall_map. eapply Forall_impl; [|exact IH].
    intros [k x] Hx. unfold dumps_item.
    now rewrite !one_line_app, one_line_dumps_str, Hx.
Qed.

Lemma one_line_progress (i count : Z) : one_line (progress i count) = true.
Proof. unfold progress. now rewrite !one_line_app, !one_line_str. Qed.

Lemma orders_from_length (indices : list Z) (w : W) :
  List.length (orders_from indices w) = List.length indices.
Proof.
  revert w. induction indices as [|i rest IH]; intros w; [reflexivity|].
  cbn [orders_from]. destruct (generate_order i w) as [order w'].
  cbn [List.length]. now rewrite IH.
Qed.

(** One pass through the loop of [run]. *)
Lemma run_step (count i : Z) (p : proc W) :
  (order <- lift (generate_order i) ;;
   print (json_dumps order) ;;;
   if i mod 100 =? 0 then print_err (progress i count) else ret tt) p
  = (tt,
     Proc (snd (generate_order i (world p)))
       (stdout p ++ json_dumps (fst (generate_order i (world p)))
        ++ String newline EmptyString)
       (stderr p ++ if i mod 100 =? 0
                    then progress i count ++ String newline EmptyString
                    else EmptyString)).
Proof.
  unfold bind, lift, print.
  destruct (generate_order i (world p)) as [order w'].
  destruct (i mod 100 =? 0); cbn; [reflexivity|].
  now rewrite append_empty_r.
Qed.

(** What the loop of [run] adds to the two streams. *)
Lemma run_loop (count : Z) (indices : list Z) (p : proc W) :
  let p' :=
    snd (for_each indices
           (fun i (_ : unit) =>
              order <- lift (generate_order i) ;;
              print (json_dumps order) ;;;
              if i mod 100 =? 0 then print_err (progress i count) else ret tt)
           tt p) in
  stdout p' = stdout p ++ emit (map json_dumps (orders_from indices (world p)))
  /\ stderr p'
     = stderr p
       ++ emit (map (fun i => progress i count)
                  (filter (fun i => i mod 100 =? 0) indices)).
Proof.
  revert p. induction indices as [|i rest IH]; intros p.
  - cbn. now rewrite !append_empty_r.
  - cbn [for_each orders_from filter]. cbv zeta.
    rewrite bind_run, run_step. cbn [fst snd].
    match goal with |- context [for_each rest ?body tt ?q] =>
      destruct (IH q) as [Hout Herr] end.
    cbv zeta in Hout, Herr. rewrite Hout, Herr.
    cbn [world stdout stderr].
    destruct (generate_order i (world p)) as [order w']. cbn [fst snd].
    destruct (i mod 100 =? 0); cbn [map emit];
      now rewrite !append_assoc, ?append_empty_r.
Qed.

(** C1. For [count >= 0], [run(count)] writes [count] lines to standard
    output, each the serialized text of one generated order, and writes to
    standard error one progress notice for each multiple of 100 up to
    [count], in order, so [count / 100] notices. With [count = 0] both
    streams stay empty; with [count = 250] there are 250 lines on standard
    output and the two notices for 100 and 200 on standard error. *)
Theorem run_writes_count_lines_and_hundreds :
  (forall (count : Z) (w : W),
      0 <= count ->
      let p := snd (run count (start w)) in
      lines (stdout p) = map json_dumps (orders_from (py_range 1 (count + 1)) w)
      /\ Z.of_nat (List.length (lines (stdout p))) = count
      /\ lines (stderr p)
         = map (fun k => progress (100 * k) count) (py_range 1 (count / 100 + 1))
      /\ Z.of_nat (List.length (lines (stderr p))) = count / 100)
  /\ (forall w : W,
         let p := snd (run 0 (start w)) in
         stdout p = EmptyString /\ stderr p = EmptyString)
  /\ (forall w : W,
         let p := snd (run 250 (start w)) in
         List.length (lines (stdout p)) = 250%nat
         /\ lines (stderr p)
            = ["  Generated 100/250 orders..."; "  Generated 200/250 orders..."]).
Proof.
  assert (forall (count : Z) (w : W),
      0 <= count ->
      let p := snd (run count (start w)) in
      lines (stdout p) = map json_dumps (orders_from (py_range 1 (count + 1)) w)
      /\ Z.of_nat (List.length (lines (stdout p))) = count
      /\ lines (stderr p)
         = map (fun k => progress (100 * k) count) (py_range 1 (count / 100 + 1))
      /\ Z.of_nat (List.length (lines (stderr p))) = count / 100) as Hgeneral.
  { intros count w Hcount p.
    destruct (run_loop count (py_range 1 (count + 1)) (start w)) as [Hout Herr].
    fold (run count) in Hout, Herr. fold p in Hout, Herr.
    cbn [start stdout stderr world append] in Hout, Herr.
    assert (lines (stdout p)
            = map json_dumps (orders_from (py_range 1 (count + 1)) w)) as Hlines.
    { rewrite Hout. apply lines_emit, Forall_map, Forall_forall.
      intros order _. apply one_line_json_dumps. }
    assert (lines (stderr p)
            = map (fun k => progress (100 * k) count)
                (py_range 1 (count / 100 + 1))) as Hnotices.
    { rewrite Herr, (hundreds_up_to count Hcount), map_map.
      apply lines_emit, Forall_map, Forall_forall.
      intros k _. apply one_line_progress. }
    repeat split.
    - exact Hlines.
    - rewrite Hlines, length_map, orders_from_length, py_range_length. lia.
    - exact Hnotices.
    - rewrite Hnotices, length_map, py_range_length.
      pose proof (Z.div_pos count 100 Hcount). lia. }
  split; [exact Hgeneral|]. split.
  - intros w. split; reflexivity.
  - intros w p.
    destruct (Hgeneral 250 w ltac:(lia)) as (_ & Hlen & Hnotices & _).
    fold p in Hlen, Hnotices. split; [lia|].
    rewrite Hnotices. reflexivity.
Qed.

(** C8. An argument that [int] rejects ends the process on the uncaught
    [ValueError]: the exit status is not zero, nothing has been written to
    standard output, and no order was generated (the world is as it was). *)
Theorem non_numeric_count_is_fatal (program arg : text) (rest : list text)
    (w : W) :
  int_of_text arg = None ->
  let (how, p) := main (program :: arg :: rest) (start w) in
  how = Uncaught "ValueError"
  /\ exit_status how <> 0
  /\ stdout p = EmptyString
  /\ world p = w.
Proof.
  intros Hparse. unfold main. rewrite Hparse. cbn.
  repeat split. discriminate.
Qed.
(** A numeric argument is the count: the process runs the loop and ends
    normally. *)
Lemma numeric_count_completes (program arg : text) (rest : list text)
    (count : Z) (p : proc W) :
  int_of_text arg = Some count ->
  main (program :: arg :: rest) p = (Completed, snd (run count p)).
Proof.
  intros Hparse. unfold main. rewrite Hparse, bind_run. reflexivity.
Qed.
End Driver.

(** The driver on the sample script, 250 orders. *)
Lemma run_writes_count_lines_and_hundreds_witness :
  0 <= 250
  /\ let p := snd (run 250 (start Scripted.sample)) in
     lines (stdout p)
       = map json_dumps (orders_from (py_range 1 (250 + 1)) Scripted.sample)
     /\ Z.of_nat (List.length (lines (stdout p))) = 250
     /\ lines (stderr p)
        = map (fun k => progress (100 * k) 250) (py_range 1 (250 / 100 + 1))
     /\ Z.of_nat (List.length (lines (stderr p))) = 250 / 100.
Proof.
  split; [lia|].
  apply (proj1 (run_writes_count_lines_and_hundreds (W := Scripted.world))). lia.
Defined.

(** The program called with the argument [abc]. *)
Lemma non_numeric_count_is_fatal_witness :
  int_of_text (codepoints "abc") = None
  /\ let (how, p) :=
       main [codepoints "generate-orders.py"; codepoints "abc"]
         (start Scripted.sample) in
     how = Uncaught "ValueError"
     /\ exit_status how <> 0
     /\ stdout p = EmptyString
     /\ world p = Scripted.sample.
Proof.
  split; [reflexivity|].
  apply (non_numeric_count_is_fatal (codepoints "generate-orders.py")
           (codepoints "abc") [] Scripted.sample).
  reflexivity.
Defined.

(** ** The decimal text of an integer *)

Lemma uint_value_of_uint_acc (d : Decimal.uint) (acc : positive) :
  Zpos (Pos.of_uint_acc d acc) = uint_value d (Zpos acc).
Proof.
  revert acc. induction d; intros acc; cbn [Pos.of_uint_acc uint_value];
    try rewrite IHd; try reflexivity; f_equal; lia.
Qed.

Lemma uint_value_of_uint (d : Decimal.uint) :
  Z.of_N (Pos.of_uint d) = uint_value d 0.
Proof.
  induction d; cbn [Pos.of_uint uint_value]; try exact IHd; try reflexivity;
    cbn [Z.of_N]; rewrite uint_value_of_uint_acc; reflexivity.
Qed.

Lemma uint_value_to_uint (p : positive) : uint_value (Pos.to_uint p) 0 = Zpos p.
Proof. now rewrite <- uint_value_of_uint, DecimalPos.Unsigned.of_to. Qed.

Lemma uint_value_split (d : Decimal.uint) (acc : Z) :
  uint_value d acc = acc * 10 ^ Z.of_nat (Decimal.nb_digits d) + uint_value d 0
  /\ 0 <= uint_value d 0 < 10 ^ Z.of_nat (Decimal.nb_digits d).
Proof.
  revert acc. induction d; intros acc; cbn [uint_value Decimal.nb_digits];
    try (cbn; lia);
    rewrite Nat2Z.inj_succ, Z.pow_succ_r by lia;
    match goal with
    | |- uint_value d ?a = _ /\ 0 <= uint_value d ?b < _ =>
        destruct (IHd a) as [Ea _]; destruct (IHd b) as [Eb Hb]; rewrite Ea;
        try rewrite Eb; destruct (IHd 0) as [_ H0]; split; nia
    end.
Qed.

Lemma uint_value_lower (d : Decimal.uint) :
  leading_nonzero d = true ->
  10 ^ Z.of_nat (Decimal.nb_digits d - 1) <= uint_value d 0.
Proof.
  destruct d; cbn [leading_nonzero]; try discriminate; intros _;
    cbn [uint_value Decimal.nb_digits]; rewrite Nat.sub_succ, Nat.sub_0_r;
    match goal with
    | |- _ <= uint_value d ?a =>
        destruct (uint_value_split d a) as [Ea _];
        destruct (uint_value_split d 0) as [_ H0]; rewrite Ea; nia
    end.
Qed.

Lemma leading_nonzero_to_uint (p : positive) :
  leading_nonzero (Pos.to_uint p) = true.
Proof.
  pose proof (DecimalPos.Unsigned.to_of (Pos.to_uint p)) as Hnorm.
  rewrite DecimalPos.Unsigned.of_to in Hnorm. cbn [N.to_uint] in Hnorm.
  pose proof (DecimalPos.Unsigned.to_uint_nonzero p) as Hnz.
  assert (forall d, Decimal.nzhead d = Decimal.Nil
                    \/ leading_nonzero (Decimal.nzhead d) = true) as Hhead.
  { induction d; cbn; auto. }
  unfold Decimal.unorm in Hnorm.
  destruct (Hhead (Pos.to_uint p)) as [Hnil|Hlead].
  - rewrite Hnil in Hnorm. congruence.
  - destruct (Decimal.nzhead (Pos.to_uint p)); try discriminate;
      rewrite Hnorm; reflexivity.
Qed.

Lemma length_string_of_uint (d : Decimal.uint) :
  String.length (NilEmpty.string_of_uint d) = Decimal.nb_digits d.
Proof. induction d; cbn; congruence. Qed.

Lemma all_digits_string_of_uint (d : Decimal.uint) :
  all_digits (NilEmpty.string_of_uint d) = true.
Proof. induction d; cbn; auto. Qed.

Lemma str_positive (p : positive) :
  str (Zpos p) = NilEmpty.string_of_uint (Pos.to_uint p).
Proof.
  unfold str. cbn [Z.to_int NilZero.string_of_int]. unfold NilZero.string_of_uint.
  pose proof (DecimalPos.Unsigned.to_uint_nonnil p).
  destruct (Pos.to_uint p); congruence.
Qed.

(** A number of [k] digits prints as [k] digits. *)
Lemma str_digits (n : Z) (k : nat) :
  (1 <= k)%nat -> 10 ^ Z.of_nat (k - 1) <= n < 10 ^ Z.of_nat k ->
  String.length (str n) = k /\ all_digits (str n) = true.
Proof.
  intros Hk Hn.
  assert (0 < 10 ^ Z.of_nat (k - 1)) by (apply Z.pow_pos_nonneg; lia).
  destruct n as [|p|p]; try lia.
  rewrite str_positive, length_string_of_uint.
  split; [|apply all_digits_string_of_uint].
  pose proof (uint_value_to_uint p) as Hval.
  pose proof (uint_value_lower _ (leading_nonzero_to_uint p)) as Hlow.
  destruct (uint_value_split (Pos.to_uint p) 0) as [_ Hup].
  rewrite Hval in Hlow, Hup.
  set (len := Decimal.nb_digits (Pos.to_uint p)) in *.
  destruct (Nat.lt_trichotomy len k) as [Hlt|[Heq|Hgt]]; [|exact Heq|].
  - pose proof (Z.pow_le_mono_r 10 (Z.of_nat len) (Z.of_nat (k - 1))). lia.
  - pose proof (Z.pow_le_mono_r 10 (Z.of_nat k) (Z.of_nat (len - 1))). lia.
Qed.

(** ** [int] reads back what [str] prints *)

Lemma parse_digits_string_of_uint (d : Decimal.uint) (after_digit : bool) (acc : Z) :
  parse_digits (NilEmpty.string_of_uint d) after_digit acc
  = match d with
    | Decimal.Nil => if after_digit then Some acc else None
    | _ => Some (uint_value d acc)
    end.
Proof.
  revert after_digit acc.
  induction d; intros after_digit acc; [reflexivity|..];
    cbn [NilEmpty.string_of_uint parse_digits uint_value];
    change (is_digit _) with true; cbn match;
    match goal with
    | |- context [digit_value ?c] =>
        let v := eval vm_compute in (digit_value c) in
        change (digit_value c) with v
    end;
    rewrite ?Z.add_0_r, IHd; destruct d; reflexivity.
Qed.

Lemma digit_is_no_space (c : ascii) : is_digit c = true -> is_space c = false.
Proof. destruct c as [[] [] [] [] [] [] [] []]; cbn; congruence. Qed.

Lemma all_digits_no_space (s : string) : all_digits s = true -> no_space s = true.
Proof.
  induction s as [|c s IH]; [reflexivity|].
  cbn [all_digits no_space]. intros [Hc Hs]%andb_prop.
  now rewrite (digit_is_no_space c Hc), IH.
Qed.

Lemma lstrip_no_space (s : string) : no_space s = true -> lstrip s = s.
Proof.
  destruct s as [|c s]; [reflexivity|].
  cbn [no_space lstrip]. intros [Hc _]%andb_prop.
  apply negb_true_iff in Hc. now rewrite Hc.
Qed.

Lemma rstrip_no_space (s : string) : no_space s = true -> rstrip s = s.
Proof.
  induction s as [|c s IH]; [reflexivity|].
  cbn [no_space rstrip]. intros [Hc Hs]%andb_prop.
  apply negb_true_iff in Hc. rewrite (IH Hs), Hc. destruct s; reflexivity.
Qed.

Lemma is_ascii_digits (s : string) : all_digits s = true -> is_ascii s = true.
Proof.
  induction s as [|c s IH]; [reflexivity|].
  cbn [all_digits is_ascii]. intros [Hc Hs]%andb_prop. rewrite (IH Hs), andb_true_r.
  destruct c as [[] [] [] [] [] [] [] []]; try discriminate Hc; reflexivity.
Qed.

Lemma digit_count_all_digits (s : string) :
  all_digits s = true -> digit_count s = String.length s.
Proof.
  induction s as [|c s IH]; [reflexivity|].
  cbn [all_digits digit_count String.length]. intros [Hc Hs]%andb_prop.
  now rewrite Hc, (IH Hs).
Qed.

(** A number below [10 ^ L] prints in at most [L] digits. *)
Lemma str_length_bound (n L : Z) :
  1 <= L -> 0 <= n < 10 ^ L -> Z.of_nat (String.length (str n)) <= L.
Proof.
  intros HL Hn. destruct n as [|p|p]; try lia.
  - cbn. lia.
  - rewrite str_positive, length_string_of_uint.
    pose proof (uint_value_lower _ (leading_nonzero_to_uint p)) as Hlow.
    rewrite (uint_value_to_uint p) in Hlow.
    set (len := Decimal.nb_digits (Pos.to_uint p)) in *.
    destruct (Z_le_gt_dec (Z.of_nat len) L) as [|Hgt]; [assumption|].
    pose proof (Z.pow_le_mono_r 10 L (Z.of_nat (len - 1))). lia.
Qed.

Section IntOfStr.
Context {W : Type} `{Platform W}.

Lemma over_limit_within (digits : nat) :
  within_limit digits -> over_limit digits = false.
Proof.
  unfold within_limit, over_limit. intros Hwithin.
  destruct (Z.ltb_spec 640 (Z.of_nat digits)),
    (Z.ltb_spec 0 int_max_str_digits),
    (Z.ltb_spec int_max_str_digits (Z.of_nat digits)); cbn; try reflexivity; lia.
Qed.

Lemma py_int_numeral (s : string) :
  all_digits s = true -> py_int s = parse_numeral s.
Proof.
  intros Hs. unfold py_int.
  rewrite (lstrip_no_space s), (rstrip_no_space s) by now apply all_digits_no_space.
  destruct s as [|c s]; [reflexivity|].
  cbn [all_digits] in Hs. apply andb_prop in Hs as [Hc _].
  destruct c as [[] [] [] [] [] [] [] []]; try discriminate Hc; reflexivity.
Qed.

Lemma py_int_minus_numeral (s : string) :
  all_digits s = true ->
  py_int (String "-" s) = option_map Z.opp (parse_numeral s).
Proof.
  intros Hs. unfold py_int.
  assert (no_space (String "-" s) = true) as Hns
    by (cbn [no_space]; now rewrite (all_digits_no_space s Hs)).
  now rewrite (lstrip_no_space _ Hns), (rstrip_no_space _ Hns).
Qed.

Lemma parse_numeral_digits (s : string) :
  all_digits s = true -> within_limit (String.length s) ->
  parse_numeral s = parse_digits s false 0.
Proof.
  intros Hs Hwithin. unfold parse_numeral.
  now rewrite (digit_count_all_digits s Hs), (over_limit_within _ Hwithin).
Qed.

Lemma py_int_digits (s : string) :
  all_digits s = true -> within_limit (String.length s) ->
  py_int s = parse_digits s false 0.
Proof.
  intros Hs Hwithin. now rewrite py_int_numeral, parse_numeral_digits.
Qed.

Lemma within_limit_str (n : Z) :
  (Z.abs n < 10 ^ 640 \/ int_max_str_digits <= 0
   \/ Z.abs n < 10 ^ int_max_str_digits) ->
  within_limit (String.length (str (Z.abs n))).
Proof.
  unfold within_limit. intros [Hn|[Hoff|Hn]].
  - left. apply str_length_bound; lia.
  - right. left. exact Hoff.
  - destruct (Z_le_gt_dec int_max_str_digits 0); [right; left; assumption|].
    right. right. apply str_length_bound; lia.
Qed.

(** [int(str(n)) == n], for a number whose digits the limit lets through. *)
Lemma py_int_str (n : Z) :
  (Z.abs n < 10 ^ 640 \/ int_max_str_digits <= 0
   \/ Z.abs n < 10 ^ int_max_str_digits) ->
  py_int (str n) = Some n.
Proof.
  intros Hn%within_limit_str.
  destruct n as [|p|p].
  - rewrite py_int_digits; [reflexivity | reflexivity | exact Hn].
  - cbn [Z.abs] in Hn. rewrite str_positive in *.
    rewrite py_int_digits by (apply all_digits_string_of_uint || exact Hn).
    rewrite parse_digits_string_of_uint.
    pose proof (DecimalPos.Unsigned.to_uint_nonnil p).
    rewrite <- (uint_value_to_uint p). destruct (Pos.to_uint p); congruence.
  - cbn [Z.abs] in Hn. rewrite str_positive in Hn.
    replace (str (Zneg p))
      with (String "-" (NilEmpty.string_of_uint (Pos.to_uint p))).
    + rewrite py_int_minus_numeral, parse_numeral_digits
        by (apply all_digits_string_of_uint || exact Hn).
      rewrite parse_digits_string_of_uint.
      pose proof (DecimalPos.Unsigned.to_uint_nonnil p).
      change (Zneg p) with (- Zpos p). rewrite <- (uint_value_to_uint p).
      destruct (Pos.to_uint p); try congruence; reflexivity.
    + unfold str. cbn [Z.to_int NilZero.string_of_int].
      unfold NilZero.string_of_uint.
      pose proof (DecimalPos.Unsigned.to_uint_nonnil p).
      destruct (Pos.to_uint p); congruence.
Qed.

(** On the [str] of an ASCII literal [int] reads the literal itself. *)
Lemma int_of_text_codepoints (s : string) :
  is_ascii s = true -> int_of_text (codepoints s) = py_int s.
Proof.
  intros Hs. unfold int_of_text, codepoints.
  assert (forallb (fun ch => ch <? 128)%N (map N_of_ascii (list_ascii_of_string s))
          = true) as ->.
  { induction s as [|c s IH]; [reflexivity|].
    cbn [is_ascii] in Hs. apply andb_prop in Hs as [Hc Hs].
    cbn [list_ascii_of_string map forallb]. now rewrite Hc, IH. }
  f_equal. rewrite map_map.
  rewrite (map_ext _ (fun c => c)) by apply ascii_N_embedding.
  now rewrite map_id, string_of_list_ascii_of_string.
Qed.

Lemma is_ascii_str (n : Z) : is_ascii (str n) = true.
Proof.
  destruct n as [|p|p]; [reflexivity|..].
  - rewrite str_positive. apply is_ascii_digits, all_digits_string_of_uint.
  - replace (str (Zneg p))
      with (String "-" (NilEmpty.string_of_uint (Pos.to_uint p))).
    + cbn [is_ascii]. now rewrite is_ascii_digits by apply all_digits_string_of_uint.
    + unfold str. cbn [Z.to_int NilZero.string_of_int].
      unfold NilZero.string_of_uint.
      pose proof (DecimalPos.Unsigned.to_uint_nonnil p).
      destruct (Pos.to_uint p); congruence.
Qed.

End IntOfStr.

(** ** More about the generated record *)

Lemma length_append (a b : string) :
  String.length (a ++ b) = (String.length a + String.length b)%nat.
Proof. induction a as [|c a IH]; cbn; congruence. Qed.

Lemma all_digits_app (a b : string) :
  all_digits (a ++ b) = all_digits a && all_digits b.
Proof.
  induction a as [|c a IH]; cbn [append all_digits]; [reflexivity|].
  now rewrite IH, andb_assoc.
Qed.

Lemma length_zeros (n : nat) : String.length (zeros n) = n.
Proof. induction n; cbn; congruence. Qed.

Lemma all_digits_zeros (n : nat) : all_digits (zeros n) = true.
Proof. induction n; cbn; auto. Qed.

(** A number from 1 to 999 prints as one to three digits. *)
Lemma str_up_to_three_digits (n : Z) :
  1 <= n <= 999 ->
  (1 <= String.length (str n) <= 3)%nat /\ all_digits (str n) = true.
Proof.
  intros Hn.
  destruct (Z_lt_le_dec n 10); [|destruct (Z_lt_le_dec n 100)].
  - destruct (str_digits n 1 ltac:(lia) ltac:(cbn; lia)) as [-> ->]. split; [lia|easy].
  - destruct (str_digits n 2 ltac:(lia) ltac:(cbn; lia)) as [-> ->]. split; [lia|easy].
  - destruct (str_digits n 3 ltac:(lia) ltac:(cbn; lia)) as [-> ->]. split; [lia|easy].
Qed.

(** [f"{n:05d}"] is five digits for a number from 0 to 99999. *)
Lemma format_05d_five_digits (n : Z) :
  0 <= n <= 99999 ->
  String.length (format_05d n) = 5%nat /\ all_digits (format_05d n) = true.
Proof.
  intros Hn. unfold format_05d.
  replace (n <? 0) with false by (symmetry; apply Z.ltb_ge; lia).
  rewrite Z.abs_eq by lia.
  assert ((1 <= String.length (str n) <= 5)%nat /\ all_digits (str n) = true)
    as [Hlen Hdigits].
  { destruct (Z.eq_dec n 0) as [->|]; [split; [cbn; lia | reflexivity]|].
    destruct (Z_lt_le_dec n 10); [|destruct (Z_lt_le_dec n 100);
      [|destruct (Z_lt_le_dec n 1000); [|destruct (Z_lt_le_dec n 10000)]]].
    - destruct (str_digits n 1 ltac:(lia) ltac:(cbn; lia)) as [-> ->]. split; [lia|easy].
    - destruct (str_digits n 2 ltac:(lia) ltac:(cbn; lia)) as [-> ->]. split; [lia|easy].
    - destruct (str_digits n 3 ltac:(lia) ltac:(cbn; lia)) as [-> ->]. split; [lia|easy].
    - destruct (str_digits n 4 ltac:(lia) ltac:(cbn; lia)) as [-> ->]. split; [lia|easy].
    - destruct (str_digits n 5 ltac:(lia) ltac:(cbn; lia)) as [-> ->]. split; [lia|easy]. }
  rewrite length_append, length_zeros, all_digits_app, all_digits_zeros, Hdigits.
  split; [lia | reflexivity].
Qed.

Lemma formatted_address_of (full_name city state email : string)
    (street postal area subscriber : Z) :
  address_draws street postal area subscriber ->
  formatted_address
    (address_of full_name city state email street postal area subscriber).
Proof.
  intros (Hs & Hp & Ha & Hsb).
  destruct (str_up_to_three_digits street Hs) as [Hslen Hsdig].
  destruct (str_digits postal 5 ltac:(lia) ltac:(cbn; lia)) as [Hplen Hpdig].
  destruct (str_digits area 3 ltac:(lia) ltac:(cbn; lia)) as [Halen Hadig].
  destruct (str_digits subscriber 4 ltac:(lia) ltac:(cbn; lia)) as [Hsblen Hsbdig].
  exists (str street), (str postal), (str area), (str subscriber).
  repeat split; assumption || lia.
Qed.

Lemma parse_digits_zeros (k : nat) (s : string) (after_digit : bool) :
  parse_digits (zeros k ++ s) after_digit 0
  = parse_digits s (match k with O => after_digit | S _ => true end) 0.
Proof.
  revert after_digit. induction k as [|k IH]; intros after_digit; [reflexivity|].
  cbn [zeros append parse_digits]. change (is_digit "0") with true. cbn match.
  change (10 * 0 + digit_value "0") with 0. rewrite IH. destruct k; reflexivity.
Qed.

(** The zero-padded text reads back as the number. *)
Lemma py_int_format_05d {W : Type} `{Platform W} (n : Z) :
  0 <= n <= 99999 -> py_int (format_05d n) = Some n.
Proof.
  intros Hn.
  destruct (format_05d_five_digits n Hn) as [Hlen Hdigits].
  rewrite py_int_digits; [| exact Hdigits | left; rewrite Hlen; cbn; lia].
  unfold format_05d.
  replace (n <? 0) with false by (symmetry; apply Z.ltb_ge; lia).
  rewrite Z.abs_eq, parse_digits_zeros by lia.
  destruct n as [|p|p]; try lia.
  - cbn. reflexivity.
  - rewrite str_positive, parse_digits_string_of_uint.
    pose proof (DecimalPos.Unsigned.to_uint_nonnil p).
    rewrite <- (uint_value_to_uint p). destruct (Pos.to_uint p); congruence.
Qed.

Lemma lower_ascii_not_upper (c : ascii) : is_upper (lower_ascii c) = false.
Proof. destruct c as [[] [] [] [] [] [] [] []]; reflexivity. Qed.

Lemma no_upper_lower (s : string) : no_upper (lower s) = true.
Proof.
  induction s as [|c s IH]; [reflexivity|].
  cbn [lower no_upper]. now rewrite lower_ascii_not_upper, IH.
Qed.

Lemma no_upper_app (a b : string) : no_upper (a ++ b) = no_upper a && no_upper b.
Proof.
  induction a as [|c a IH]; cbn [append no_upper]; [reflexivity|].
  now rewrite IH, andb_assoc.
Qed.

(** On every row of [PRODUCTS] a tenth of the price, rounded to cents, is
    above zero and below the price. *)
Lemma tenth_of_price_bounds (product_id : Z) (name : string) (price : float)
    (desc : string) :
  In (product_id, name, price, desc) PRODUCTS ->
  (0 <? py_round (price * 0.1) 2)%float = true
  /\ (py_round (price * 0.1) 2 <? price)%float = true.
Proof.
  intros Hin.
  assert (forallb (fun p : product =>
                     let '(_, _, price, _) := p in
                     ((0 <? py_round (price * 0.1) 2)
                      && (py_round (price * 0.1) 2 <? price))%float)
            PRODUCTS = true) as Hall by (vm_compute; reflexivity).
  pose proof (proj1 (forallb_forall _ _) Hall _ Hin) as Hp. cbn beta iota in Hp.
  now apply andb_prop in Hp.
Qed.

Section MoreOrderProperties.
Context {W : Type} `{Platform W}.

(** Open the record of a run: its drawn values and what is known of them. *)
Ltac open_order order_num w :=
  destruct (generate_order_run order_num w)
    as (first_name & last_name & city & state & now & order_lines & xid & customer
        & order_type & channel & street & postal & area & subscriber
        & -> & Hfirst & Hlast & Hcity & Hcount & Hlines & Hcustomer & Htype
        & Hchannel & Hdraws).

(** X1. Every order line has a quantity from 1 to 3, the currency USD, the tax
    rate 0.08 and a fulfillment type of [FULFILLMENT_TYPES]. *)
Theorem line_fields_in_their_domains (order_num : Z) (w : W) :
  exists order_lines,
    dict_get "order_lines" (fst (generate_order order_num w))
      = Some (PList order_lines)
    /\ Forall (fun line =>
                 (exists quantity,
                     dict_get "quantity" line = Some (PInt quantity)
                     /\ 1 <= quantity <= 3)
                 /\ dict_get "currency" line = Some (PStr "USD")
                 /\ dict_get "tax_rate" line = Some (PFloat 0.08%float)
                 /\ exists fulfillment_type,
                     dict_get "fulfillment_type" line = Some (PStr fulfillment_type)
                     /\ In fulfillment_type FULFILLMENT_TYPES)
         order_lines.
Proof.
  open_order order_num w.
  exists order_lines. split; [reflexivity|].
  eapply Forall2_Forall_r; [|exact Hlines].
  intros i line ([[[product_id name] price] desc] & quantity & u & fulfillment
                 & ? & ? & ? & ? & -> & _ & Hq & Hf & _).
  split; [exists quantity; split; [reflexivity | exact Hq]|].
  repeat split. exists fulfillment. split; [reflexivity | exact Hf].
Qed.

(** X2. The order type is one of [ORDER_TYPES] and the channel one of
    [CHANNELS]. *)
Theorem order_type_and_channel_in_tables (order_num : Z) (w : W) :
  exists order_type channel,
    dict_get "order_type" (fst (generate_order order_num w)) = Some (PStr order_type)
    /\ In order_type ORDER_TYPES
    /\ dict_get "channel" (fst (generate_order order_num w)) = Some (PStr channel)
    /\ In channel CHANNELS.
Proof.
  open_order order_num w.
  exists order_type, channel. repeat split; assumption.
Qed.

(** X3. The customer id is [CUST-] followed by exactly five digits, which read
    back as a number from 1 to 10000. *)
Theorem customer_id_is_five_digits (order_num : Z) (w : W) :
  exists digits number,
    dict_get "customer_id" (fst (generate_order order_num w))
      = Some (PStr ("CUST-" ++ digits))
    /\ String.length digits = 5%nat
    /\ all_digits digits = true
    /\ py_int digits = Some number
    /\ 1 <= number <= 10000.
Proof.
  open_order order_num w.
  exists (format_05d customer), customer.
  destruct (format_05d_five_digits customer ltac:(lia)) as [Hlen Hdigits].
  repeat split; try assumption; try lia.
  apply py_int_format_05d. lia.
Qed.

(** X4. The billing address and every shipping address have the same layout:
    a street number of one to three digits, no second line, a five-digit
    postal code, the country USA and a phone number [+1-AAA-555-SSSS]. *)
Theorem addresses_are_formatted (order_num : Z) (w : W) :
  exists order_lines billing,
    let order := fst (generate_order order_num w) in
    dict_get "order_lines" order = Some (PList order_lines)
    /\ dict_get "billing_address" order = Some billing
    /\ formatted_address billing
    /\ Forall (fun line =>
                 exists shipping,
                   dict_get "shipping_address" line = Some shipping
                   /\ formatted_address shipping)
         order_lines.
Proof.
  open_order order_num w.
  eexists order_lines, _. cbn zeta.
  split; [reflexivity|]. split; [reflexivity|].
  split; [apply formatted_address_of, Hdraws|].
  eapply Forall2_Forall_r; [|exact Hlines].
  intros i line ([[[product_id name] price] desc] & ? & ? & ? & s & po & a & sb
                 & -> & _ & _ & _ & Hd).
  eexists. split; [reflexivity|]. apply formatted_address_of, Hd.
Qed.

(** X5. One reading of the clock dates the whole order: the timestamp is that
    instant, and every line ships one day and is delivered four days after
    it. *)
Theorem dates_come_from_one_clock_reading (order_num : Z) (w : W) :
  exists (now : datetime) order_lines,
    let order := fst (generate_order order_num w) in
    dict_get "timestamp" order = Some (PStr (strftime now "%Y-%m-%dT%H:%M:%S"))
    /\ dict_get "order_lines" order = Some (PList order_lines)
    /\ Forall (fun line =>
                 dict_get "estimated_ship_date" line
                   = Some (PStr (strftime (add_days now 1) "%Y-%m-%d"))
                 /\ dict_get "estimated_delivery_date" line
                    = Some (PStr (strftime (add_days now 4) "%Y-%m-%d")))
         order_lines.
Proof.
  open_order order_num w.
  exists now, order_lines. cbn zeta.
  split; [reflexivity|]. split; [reflexivity|].
  eapply Forall2_Forall_r; [|exact Hlines].
  intros i line ([[[product_id name] price] desc] & ? & ? & ? & ? & ? & ? & ?
                 & -> & _).
  split; reflexivity.
Qed.

(** X6. The record has exactly the eight keys of an order, in that order; each
    line exactly the thirteen keys of a line; the billing address and each
    shipping address exactly the nine keys of an address. *)
Theorem records_have_fixed_keys (order_num : Z) (w : W) :
  exists order_lines billing,
    let order := fst (generate_order order_num w) in
    dict_keys order = ORDER_KEYS
    /\ dict_get "order_lines" order = Some (PList order_lines)
    /\ dict_get "billing_address" order = Some billing
    /\ dict_keys billing = ADDRESS_KEYS
    /\ Forall (fun line =>
                 dict_keys line = LINE_KEYS
                 /\ exists shipping,
                     dict_get "shipping_address" line = Some shipping
                     /\ dict_keys shipping = ADDRESS_KEYS)
         order_lines.
Proof.
  open_order order_num w.
  eexists order_lines, _. cbn zeta.
  split; [reflexivity|]. split; [reflexivity|]. split; [reflexivity|].
  split; [reflexivity|].
  eapply Forall2_Forall_r; [|exact Hlines].
  intros i line ([[[product_id name] price] desc] & ? & ? & ? & ? & ? & ? & ?
                 & -> & _).
  split; [reflexivity|]. eexists. split; reflexivity.
Qed.

(** X7. A discount, when a line has one, is above zero and below the unit price
    of that line. *)
Theorem discount_is_below_unit_price (order_num : Z) (w : W) :
  exists order_lines,
    dict_get "order_lines" (fst (generate_order order_num w))
      = Some (PList order_lines)
    /\ Forall (fun line =>
                 exists price,
                   dict_get "unit_price" line = Some (PFloat price)
                   /\ (dict_get "discount_amount" line = Some PNone
                       \/ exists amount,
                           dict_get "discount_amount" line = Some (PFloat amount)
                           /\ (0 <? amount)%float = true
                           /\ (amount <? price)%float = true))
         order_lines.
Proof.
  open_order order_num w.
  exists order_lines. split; [reflexivity|].
  eapply Forall2_Forall_r; [|exact Hlines].
  intros i line ([[[product_id name] price] desc] & ? & u & ? & ? & ? & ? & ?
                 & -> & Hp & _).
  exists price. split; [reflexivity|].
  destruct (tenth_of_price_bounds _ _ _ _ Hp) as [Hlow Hhigh].
  cbn [line_of dict_get items_get String.eqb Ascii.eqb Bool.eqb].
  unfold discount_of. destruct (u <? 0.2)%float; [right | left; reflexivity].
  eexists. split; [reflexivity|]. split; assumption.
Qed.

(** X8. The email of an order has no upper-case letter and ends in
    [@example.com]. *)
Theorem email_is_lower_case_at_example_com (order_num : Z) (w : W) :
  exists billing local,
    dict_get "billing_address" (fst (generate_order order_num w)) = Some billing
    /\ dict_get "email" billing = Some (PStr (local ++ "@example.com"))
    /\ no_upper (local ++ "@example.com") = true.
Proof.
  open_order order_num w.
  eexists _, (lower first_name ++ "." ++ lower last_name).
  split; [reflexivity|]. split.
  - cbn. now rewrite !append_assoc.
  - now rewrite !no_upper_app, !no_upper_lower.
Qed.
End MoreOrderProperties.

(** ** More about the driver *)

Lemma py_range_app (a b c : Z) :
  a <= b <= c -> py_range a c = (py_range a b ++ py_range b c)%list.
Proof.
  intros Habc. replace c with (b + Z.of_nat (Z.to_nat (c - b))) by lia.
  induction (Z.to_nat (c - b)) as [|k IH].
  - rewrite Z.add_0_r. unfold py_range at 3. rewrite Z.sub_diag. cbn.
    now rewrite app_nil_r.
  - rewrite Nat2Z.inj_succ.
    replace (b + Z.succ (Z.of_nat k)) with (b + Z.of_nat k + 1) by lia.
    rewrite !py_range_snoc by lia. now rewrite IH, app_assoc.
Qed.

Section MoreDriver.
Context {W : Type} `{Platform W}.

Lemma orders_from_app (l1 l2 : list Z) (w : W) :
  orders_from (l1 ++ l2) w
  = (orders_from l1 w ++ orders_from l2 (world_after l1 w))%list.
Proof.
  revert w. induction l1 as [|i l1 IH]; intros w; [reflexivity|].
  cbn [app orders_from world_after].
  destruct (generate_order i w) as [order w']. cbn [snd app]. now rewrite IH.
Qed.

Lemma orders_from_are_orders (indices : list Z) (w : W) :
  Forall2 is_order indices (orders_from indices w).
Proof.
  revert w. induction indices as [|i rest IH]; intros w; [constructor|].
  cbn [orders_from]. pose proof (generate_order_run i w) as Horder.
  destruct (generate_order i w) as [order w']. constructor; [exact Horder | apply IH].
Qed.

(** The lines [run] leaves on standard output, whatever the count. *)
Lemma run_stdout (count : Z) (w : W) :
  lines (stdout (snd (run count (start w))))
  = map json_dumps (orders_from (py_range 1 (count + 1)) w).
Proof.
  destruct (run_loop count (py_range 1 (count + 1)) (start w)) as [Hout _].
  fold (run count) in Hout. cbn [start stdout world append] in Hout.
  rewrite Hout. apply lines_emit, Forall_map, Forall_forall.
  intros order _. apply one_line_json_dumps.
Qed.

(** What [run] leaves on standard error, whatever the count. *)
Lemma run_stderr (count : Z) (w : W) :
  stderr (snd (run count (start w)))
  = emit (map (fun i => progress i count)
            (filter (fun i => i mod 100 =? 0) (py_range 1 (count + 1)))).
Proof.
  destruct (run_loop count (py_range 1 (count + 1)) (start w)) as [_ Herr].
  fold (run count) in Herr. cbn [start stderr world append] in Herr. exact Herr.
Qed.

(** X9. The k-th line on standard output is the text of the record that
    [generate_order(k)] returned, and the note of that record reads
    [Order #k]. *)
Theorem printed_orders_are_numbered_from_one (count : Z) (w : W) :
  exists orders,
    lines (stdout (snd (run count (start w)))) = map json_dumps orders
    /\ Forall2 (fun k order =>
                  is_order k order
                  /\ dict_get "notes" order
                     = Some (PStr ("Order #" ++ str k ++ " - Generated for testing")))
         (py_range 1 (count + 1)) orders.
Proof.
  exists (orders_from (py_range 1 (count + 1)) w).
  split; [apply run_stdout|].
  eapply Forall2_impl; [|apply orders_from_are_orders].
  intros k order Horder. split; [exact Horder|].
  destruct Horder as (? & ? & ? & ? & ? & ? & ? & ? & ? & ? & ? & ? & ? & ?
                      & -> & _).
  reflexivity.
Qed.

(** X10. With a count of zero or less the loop does not run: nothing is written
    and nothing is drawn. *)
Theorem run_without_orders_does_nothing (count : Z) (p : proc W) :
  count <= 0 -> run count p = (tt, p).
Proof.
  intros Hcount. unfold run, py_range.
  replace (Z.to_nat (count + 1 - 1)) with 0%nat by lia. reflexivity.
Qed.

(** X11. Without an argument the program writes ten orders, no progress notice,
    and ends normally. *)
Theorem default_run_writes_ten_orders (program : text) (w : W) :
  let (how, p) := main [program] (start w) in
  how = Completed
  /\ exit_status how = 0
  /\ List.length (lines (stdout p)) = 10%nat
  /\ stderr p = EmptyString.
Proof.
  unfold main. rewrite bind_run. cbn [ret fst snd].
  repeat split.
  - now rewrite run_stdout, length_map, orders_from_length, py_range_length.
  - rewrite run_stderr. reflexivity.
Qed.

(** X12. Every integer, written in decimal as [str] prints it, is accepted
    as the count when the digit limit of [int] lets it through (at most 640
    digits, or no limit set, or at most as many digits as the limit, which
    is 4300 unless configured): the program ends normally with status 0
    after printing that many orders, none for a negative number. *)
Theorem decimal_count_is_accepted (program : text) (rest : list text)
    (n : Z) (w : W) :
  (Z.abs n < 10 ^ 640 \/ int_max_str_digits <= 0
   \/ Z.abs n < 10 ^ int_max_str_digits) ->
  let (how, p) := main (program :: codepoints (str n) :: rest) (start w) in
  how = Completed
  /\ exit_status how = 0
  /\ List.length (lines (stdout p)) = Z.to_nat n.
Proof.
  intros Hn.
  assert (int_of_text (codepoints (str n)) = Some n) as Hparse
    by (rewrite int_of_text_codepoints by apply is_ascii_str;
        apply py_int_str, Hn).
  rewrite (numeric_count_completes program _ rest n (start w) Hparse).
  repeat split.
  rewrite run_stdout, length_map, orders_from_length, py_range_length.
  f_equal. lia.
Qed.

(** X13. The orders printed do not depend on the count, only their number does:
    the lines of a run of [n] orders are the first [n] lines of any longer
    run from the same world. *)
Theorem shorter_run_prints_a_prefix (n m : Z) (w : W) :
  n <= m ->
  lines (stdout (snd (run n (start w))))
  = firstn (Z.to_nat n) (lines (stdout (snd (run m (start w))))).
Proof.
  intros Hnm. rewrite !run_stdout.
  destruct (Z_lt_le_dec n 0) as [Hneg|Hpos].
  - replace (Z.to_nat n) with 0%nat by lia.
    unfold py_range at 1. replace (Z.to_nat (n + 1 - 1)) with 0%nat by lia.
    reflexivity.
  - rewrite (py_range_app 1 (n + 1) (m + 1)) by lia.
    rewrite orders_from_app, map_app, firstn_app.
    rewrite length_map, orders_from_length, py_range_length.
    replace (Z.to_nat n - Z.to_nat (n + 1 - 1))%nat with 0%nat by lia.
    rewrite firstn_O, app_nil_r, firstn_all2; [reflexivity|].
    rewrite length_map, orders_from_length, py_range_length. lia.
Qed.
End MoreDriver.

(** A run of minus three orders on the sample script. *)
Lemma run_without_orders_does_nothing_witness :
  -3 <= 0 /\ run (-3) (start Scripted.sample) = (tt, start Scripted.sample).
Proof.
  split; [lia|]. apply (run_without_orders_does_nothing (-3)). lia.
Defined.

(** Two orders and five orders on the sample script. *)
Lemma shorter_run_prints_a_prefix_witness :
  2 <= 5
  /\ lines (stdout (snd (run 2 (start Scripted.sample))))
     = firstn (Z.to_nat 2) (lines (stdout (snd (run 5 (start Scripted.sample))))).
Proof.
  split; [lia|]. apply (shorter_run_prints_a_prefix 2 5). lia.
Defined.

(** The program called with the argument [25]. *)
Lemma decimal_count_is_accepted_witness :
  (Z.abs 25 < 10 ^ 640 \/ int_max_str_digits <= 0
   \/ Z.abs 25 < 10 ^ int_max_str_digits)
  /\ let (how, p) :=
       main [codepoints "generate-orders.py"; codepoints (str 25)]
         (start Scripted.sample) in
     how = Completed
     /\ exit_status how = 0
     /\ List.length (lines (stdout p)) = Z.to_nat 25.
Proof.
  assert (Z.abs 25 < 10 ^ 640) as Hsmall by (vm_compute; reflexivity).
  split; [left; exact Hsmall|].
  apply (decimal_count_is_accepted (codepoints "generate-orders.py") [] 25
           Scripted.sample).
  left. exact Hsmall.
Defined.
